(** * A shallow embedding of the change-diagnosis pipeline

    The Python sources [toolbox.py], [agent_tools.py] and [agent.py] are
    embedded function by function.  External collaborators (the GitHub REST
    API, the embedding model, the vector index, the chat model, the clock)
    are fields of explicit "world" records; every network request a function
    issues is appended to a request log that the function returns next to its
    Python result, so that "performs no network call" is a statement about
    that log.  Loops that Python writes as [while True] take a fuel argument
    and report [None] when the fuel runs out before the loop exits. *)

From Stdlib Require Import ZArith QArith Ascii String List Lia Bool.
From stdpp Require Import gmap strings list pretty.

Set Warnings "-register-all".
Open Scope string_scope.
Open Scope list_scope.
Open Scope Z_scope.

(** ** Python values and built-ins used by the sources *)

Module Py.

(** The fragment of Python's dynamic values that crosses function
    boundaries in the sources.  A [dict] keeps insertion order, hence the
    association list. *)
Inductive value :=
| PyNone
| PyInt (z : Z)
| PyStr (s : string)
| PyList (items : list value)
| PyDict (entries : list (string * value)).

(** [d[k] = v] on an insertion-ordered dict: an existing key keeps its
    position and takes the new value, a fresh key goes last. *)
Fixpoint dict_set (d : list (string * value)) (k : string) (v : value)
  : list (string * value) :=
  match d with
  | [] => [(k, v)]
  | (k', v') :: d' =>
      if String.eqb k' k then (k, v) :: d' else (k', v') :: dict_set d' k v
  end.

(** [d[k]]; [None] stands for the [KeyError]. *)
Fixpoint dict_get (d : list (string * value)) (k : string) : option value :=
  match d with
  | [] => None
  | (k', v) :: d' => if String.eqb k' k then Some v else dict_get d' k
  end.

(** [obj[k]] with a string subscript: defined on dicts only (a list raises
    [TypeError]). *)
Definition subscript (obj : value) (k : string) : option value :=
  match obj with
  | PyDict d => dict_get d k
  | _ => None
  end.

(** Truthiness of an optional string, as in [if pr.get('merged_at')]: a
    missing key and JSON [null] both give [None], and the empty string is
    falsy too. *)
Definition truthy (o : option string) : bool :=
  match o with
  | Some s => negb (String.eqb s "")
  | None => false
  end.

(** [str(x)] inside an f-string for a field that may be [None]. *)
Definition str_opt (o : option string) : string :=
  match o with
  | Some s => s
  | None => "None"
  end.

(** [a >= b] on [str]: lexicographic on code points. *)
Definition str_ge (a b : string) : bool := String.leb b a.

(** [s.split(sep)] for a one-character separator: never the empty list. *)
Fixpoint split (sep : ascii) (s : string) : list string :=
  match s with
  | EmptyString => [EmptyString]
  | String c s' =>
      if Ascii.eqb c sep then EmptyString :: split sep s'
      else match split sep s' with
           | h :: t => String c h :: t
           | [] => [String c EmptyString]
           end
  end.

(** [l[-1]] on a list that [split] produced. *)
Definition last_item (l : list string) : string := List.last l EmptyString.

(** [zip(a, b, c)]: stops at the shortest argument. *)
Fixpoint zip3 {A B C} (a : list A) (b : list B) (c : list C)
  : list (A * B * C) :=
  match a, b, c with
  | x :: a', y :: b', z :: c' => (x, y, z) :: zip3 a' b' c'
  | _, _, _ => []
  end.

End Py.

(** ** Records exchanged between the components *)

(** A pull-request object of GitHub's list endpoint, restricted to the keys
    the collector reads. *)
Module Pull.
Record t := {
  id : Z;
  title : string;
  body : option string;
  state : string;
  updated_at : string;
  html_url : string;
  merged_at : option string;
  merge_commit_sha : string
}.
End Pull.

(** The [pr_details] dict built by [fetch_recent_prs].  Timestamps are
    integers counting microseconds since the epoch; the rounding of Python's
    float is not modelled. *)
Module PrDetails.
Record t := {
  id : Z;
  title : string;
  state : string;
  description : option string;
  updated_at : Z;
  url : string;
  merge_description : string
}.
End PrDetails.

(** The metadata dict stored next to every vector. *)
Module Metadata.
Record t := {
  title : string;
  state : string;
  updated_at : Z;
  url : string
}.
End Metadata.

(** One entry of the [matches] list of a vector-index query response. *)
Module Match.
Record t := {
  id : string;
  score : Q;
  metadata : Metadata.t
}.
End Match.

(** ** HTTP *)

(** [requests.get(url, headers=headers, params=params)].  The headers are
    the same two constants on every call and are left out. *)
Module Http.

Record request := {
  url : string;
  params : list (string * Py.value)
}.

(** A response, with the three views the sources take of it:
    [.status_code], [.json()] (as a list of pull objects, or as a commit
    object of which only [commit.message] is read) and [.text]. *)
Record response := {
  status_code : Z;
  json : list Pull.t;
  commit_message : option string;
  text : string
}.

End Http.

(** ** Calendar times and their ISO-8601 rendering *)

Module Datetime.

Local Open Scope N_scope.

(** A [datetime] in UTC. *)
Record t := {
  year : N;
  month : N;
  day : N;
  hour : N;
  minute : N;
  second : N;
  microsecond : N
}.

Definition digit (n : N) : ascii := ascii_of_N (48 + n mod 10).

(** The last [k] decimal digits of [n], zero-padded: [%04d], [%02d],
    [%06d] on values that fit. *)
Fixpoint digits (k : nat) (n : N) : string :=
  match k with
  | O => EmptyString
  | S k' => digits k' (n / 10) +:+ String (digit n) EmptyString
  end.

(** [YYYY-MM-DDTHH:MM:SS], the part every rendering starts with. *)
Definition to_seconds (d : t) : string :=
  digits 4 (year d) +:+ "-" +:+ digits 2 (month d) +:+ "-" +:+
  digits 2 (day d) +:+ "T" +:+ digits 2 (hour d) +:+ ":" +:+
  digits 2 (minute d) +:+ ":" +:+ digits 2 (second d).

(** [d.isoformat()] for a datetime whose [tzinfo] is [timezone.utc]: the
    fraction is printed only when it is not zero, and the offset always. *)
Definition isoformat (d : t) : string :=
  to_seconds d +:+
  (if N.eqb (microsecond d) 0 then EmptyString
   else "." +:+ digits 6 (microsecond d)) +:+
  "+00:00".

(** The rendering GitHub uses for [updated_at], which is the format string
    ['%Y-%m-%dT%H:%M:%SZ'] of line 74: whole seconds and a [Z]. *)
Definition github_format (d : t) : string := to_seconds d +:+ "Z".

(** Chronological order of two UTC datetimes: lexicographic on the
    fields. *)
Definition fields (d : t) : list N :=
  [year d; month d; day d; hour d; minute d; second d; microsecond d].

Fixpoint lex_compare (a b : list N) : comparison :=
  match a, b with
  | [], [] => Eq
  | [], _ :: _ => Lt
  | _ :: _, [] => Gt
  | x :: a', y :: b' =>
      match N.compare x y with
      | Eq => lex_compare a' b'
      | c => c
      end
  end.

Definition compare (a b : t) : comparison := lex_compare (fields a) (fields b).

(** [a <= b]: instant [a] is not after instant [b]. *)
Definition leb (a b : t) : bool :=
  match compare a b with
  | Gt => false
  | _ => true
  end.

(** The same instant with the fraction of the second dropped. *)
Definition truncate (d : t) : t :=
  {| year := year d; month := month d; day := day d; hour := hour d;
     minute := minute d; second := second d; microsecond := 0 |}.

(** Field ranges of a [datetime] object. *)
Definition wf (d : t) : Prop :=
  (year d < 10000 /\ month d < 100 /\ day d < 100 /\ hour d < 100 /\
   minute d < 100 /\ second d < 100 /\ microsecond d < 1000000)%N.

End Datetime.

(** ** toolbox.py, class [Embedder] *)

Module Embedder.

(** *** [fetch_recent_prs] *)

(** What the collector talks to: the HTTP host, the clock and the
    timestamp parser.  [recency_of h] is
    [datetime.now(timezone.utc) - timedelta(hours=h)];
    [strptime_timestamp s] is
    [datetime.strptime(s, '%Y-%m-%dT%H:%M:%SZ').timestamp()]. *)
Record world := {
  http_get : Http.request -> Http.response;
  recency_of : Z -> Datetime.t;
  strptime_timestamp : string -> Z
}.

(** How the [while True] loop was left. *)
Inductive loop_exit :=
| Aborted
| Broke (all_recent_prs : list Pull.t).

Section Collector.

Variable w : world.
Variables owner repo : string.

Definition pr_url : string :=
  "https://api.github.com/repos/" +:+ owner +:+ "/" +:+ repo +:+ "/pulls".

(** The [params] dict as it stands when page [page] is requested. *)
Definition page_request (page : nat) : Http.request :=
  {| Http.url := pr_url;
     Http.params := [("state", Py.PyStr "all");
                     ("per_page", Py.PyInt 100);
                     ("page", Py.PyInt (Z.of_nat page))] |}.

Definition commit_request (merge_commit_sha : string) : Http.request :=
  {| Http.url := "https://api.github.com/repos/" +:+ owner +:+ "/" +:+ repo
                 +:+ "/commits/" +:+ merge_commit_sha;
     Http.params := [] |}.

(** [pr['updated_at'] >= recency_str] *)
Definition is_recent (recency_str : string) (pr : Pull.t) : bool :=
  Py.str_ge (Pull.updated_at pr) recency_str.

(** Lines 44-62.  The result is the way the loop was left, if it was, and
    the requests issued so far. *)
Fixpoint paginate (recency_str : string) (fuel page : nat)
    (all_recent_prs : list Pull.t) (log : list Http.request)
  : option loop_exit * list Http.request :=
  match fuel with
  | O => (None, log)
  | S fuel' =>
      let response := http_get w (page_request page) in
      let log := log ++ [page_request page] in
      if negb (Http.status_code response =? 200) then (Some Aborted, log)
      else
        let prs := Http.json response in
        let recent_prs := List.filter (is_recent recency_str) prs in
        match recent_prs with
        | [] => (Some (Broke all_recent_prs), log)
        | _ :: _ =>
            paginate recency_str fuel' (S page)
                     (all_recent_prs ++ recent_prs) log
        end
  end.

(** Lines 69-83 for one merged pull request, given the commit response. *)
Definition pr_details (pr : Pull.t) (commit_response : Http.response)
  : PrDetails.t :=
  {| PrDetails.id := Pull.id pr;
     PrDetails.title := Pull.title pr;
     PrDetails.state := Pull.state pr;
     PrDetails.description := Pull.body pr;
     PrDetails.updated_at := strptime_timestamp w (Pull.updated_at pr);
     PrDetails.url := Pull.html_url pr;
     PrDetails.merge_description :=
       default EmptyString (Http.commit_message commit_response) |}.

(** Lines 67-85. *)
Fixpoint collect_merged (prs : list Pull.t) (all_prs : list PrDetails.t)
    (log : list Http.request) : list PrDetails.t * list Http.request :=
  match prs with
  | [] => (all_prs, log)
  | pr :: rest =>
      if Py.truthy (Pull.merged_at pr) then
        let req := commit_request (Pull.merge_commit_sha pr) in
        collect_merged rest (all_prs ++ [pr_details pr (http_get w req)])
                       (log ++ [req])
      else collect_merged rest all_prs log
  end.

Definition recency_str (hours_ago : Z) : string :=
  Datetime.isoformat (recency_of w hours_ago) +:+ "Z".

(** [fetch_recent_prs]: the returned list, if the function returns within
    [fuel] iterations of the loop, and the requests issued. *)
Definition fetch_recent_prs (fuel : nat) (hours_ago : Z)
  : option (list PrDetails.t) * list Http.request :=
  match paginate (recency_str hours_ago) fuel 1 [] [] with
  | (None, log) => (None, log)
  | (Some Aborted, log) => (Some [], log)
  | (Some (Broke all_recent_prs), log) =>
      let '(all_prs, log) := collect_merged all_recent_prs [] log in
      (Some all_prs, log)
  end.

End Collector.

(** *** [embed_pr_data] *)

Section Embed.

(** The embedding service: [self.embeddings.embed_documents].  Nothing is
    assumed about how many vectors it returns. *)
Context {V : Type}.
Variable embed_documents : list string -> list V.

(** [pr['url'].split('/')[-1]] *)
Definition pr_id (pr : PrDetails.t) : string :=
  Py.last_item (Py.split "/"%char (PrDetails.url pr)).

(** The f-string of line 101. *)
Definition text_to_embed (pr : PrDetails.t) : string :=
  "Title: " +:+ PrDetails.title pr +:+
  ". Description: " +:+ Py.str_opt (PrDetails.description pr) +:+
  ". Merge Description: " +:+ PrDetails.merge_description pr +:+ ".".

Definition metadata (pr : PrDetails.t) : Metadata.t :=
  {| Metadata.title := PrDetails.title pr;
     Metadata.state := PrDetails.state pr;
     Metadata.updated_at := PrDetails.updated_at pr;
     Metadata.url := PrDetails.url pr |}.

(** [embed_pr_data]: the three accumulators of the first loop are the three
    maps; the second loop is the [zip]. *)
Definition embed_pr_data (pr_data_list : list PrDetails.t)
  : list (string * V * Metadata.t) :=
  match pr_data_list with
  | [] => []
  | _ :: _ =>
      let ids := map pr_id pr_data_list in
      let texts := map text_to_embed pr_data_list in
      let metadatas := map metadata pr_data_list in
      let embeddings_list := embed_documents texts in
      Py.zip3 ids embeddings_list metadatas
  end.

End Embed.

(** *** [upsert_to_pinecone] *)

(** The vector index service as [self.pc] sees it: the named indexes with
    their entries, and the calls received so far. *)
Inductive pinecone_call {V : Type} :=
| ListIndexes
| CreateIndex (name : string) (dimension : Z) (metric cloud region : string)
| Upsert (index_name : string) (vectors : list (string * V * Metadata.t)).
Arguments pinecone_call : clear implicits.

Record pinecone {V : Type} := {
  indexes : gmap string (gmap string (V * Metadata.t));
  calls : list (pinecone_call V)
}.
Arguments pinecone : clear implicits.

Section Upsert.

Context {V : Type}.

Definition received (c : pinecone_call V) (pc : pinecone V) : pinecone V :=
  {| indexes := indexes pc; calls := calls pc ++ [c] |}.

(** [self.pc.create_index(name=..., dimension=..., ...)]: a new, empty
    index. *)
Definition create_index (name : string) (dimension : Z)
    (metric cloud region : string) (pc : pinecone V) : pinecone V :=
  {| indexes := <[name := ∅]> (indexes pc);
     calls := calls pc ++ [CreateIndex name dimension metric cloud region] |}.

(** [index.upsert(vectors)]: insert or overwrite by id, in list order. *)
Definition upsert_entries (vectors : list (string * V * Metadata.t))
    (entries : gmap string (V * Metadata.t)) : gmap string (V * Metadata.t) :=
  foldl (fun m x => <[x.1.1 := (x.1.2, x.2)]> m) entries vectors.

Definition index_upsert (index_name : string)
    (vectors : list (string * V * Metadata.t)) (pc : pinecone V)
  : pinecone V :=
  {| indexes := <[index_name :=
                    upsert_entries vectors
                      (default ∅ (indexes pc !! index_name))]> (indexes pc);
     calls := calls pc ++ [Upsert index_name vectors] |}.

(** [upsert_to_pinecone]: [index_name not in existing_index] is the failed
    lookup of the name among the indexes that [list_indexes] reports. *)
Definition upsert_to_pinecone (vectors : list (string * V * Metadata.t))
    (index_name : string) (pc : pinecone V) : pinecone V :=
  match vectors with
  | [] => pc
  | _ :: _ =>
      let pc := received ListIndexes pc in
      let pc :=
        match indexes pc !! index_name with
        | None => create_index index_name 1024 "cosine" "aws" "us-east-1" pc
        | Some _ => pc
        end in
      index_upsert index_name vectors pc
  end.

End Upsert.

End Embedder.

(** ** toolbox.py, class [Retriever] *)

Module Retriever.

(** The metadata filter of a query: [{field: {'$gte': bound}}]. *)
Inductive metadata_filter :=
| Gte (field : string) (bound : Z).

(** The numeric metadata fields a filter can test. *)
Definition numeric_field (md : Metadata.t) (field : string) : option Z :=
  if String.eqb field "updated_at" then Some (Metadata.updated_at md)
  else None.

(** Whether a stored record passes a filter; a record without the field
    does not. *)
Definition passes (f : metadata_filter) (md : Metadata.t) : bool :=
  match f with
  | Gte field bound =>
      match numeric_field md field with
      | Some v => bound <=? v
      | None => false
      end
  end.

(** What the retriever talks to.  [now] is
    [datetime.now(timezone.utc).timestamp()] in microseconds;
    [index_query name vector top_k include_metadata filter] is
    [self.pc.Index(name).query(...)], of which the [matches] are kept. *)
Record world {V : Type} := {
  now : Z;
  embed_query : string -> V;
  index_query : string -> V -> Z -> bool -> metadata_filter -> list Match.t;
  http_get : Http.request -> Http.response
}.
Arguments world : clear implicits.

(** [timedelta(hours=12)] in microseconds. *)
Definition twelve_hours : Z := 12 * 3600 * 1000000.

Section Retrieve.

Context {V : Type}.
Variable w : world V.

(** [semantic_search] *)
Definition semantic_search (issue_description index_name : string)
    (top_k : Z) : list Match.t :=
  let cutoff_time := now w - twelve_hours in
  let query_embedding := embed_query w issue_description in
  let results :=
    index_query w index_name query_embedding top_k true
                (Gte "updated_at" cutoff_time) in
  results.

Definition diff_request (owner repo pr_id : string) : Http.request :=
  {| Http.url := "https://github.com/" +:+ owner +:+ "/" +:+ repo
                 +:+ "/pull/" +:+ pr_id +:+ ".diff";
     Http.params := [] |}.

(** The [for] loop of lines 179-186: the dict built so far and the
    requests issued so far. *)
Fixpoint fetch_diffs (owner repo : string) (pr_ids : list string)
    (diffs : list (string * Py.value)) (log : list Http.request)
  : list (string * Py.value) * list Http.request :=
  match pr_ids with
  | [] => (diffs, log)
  | pr_id :: rest =>
      let req := diff_request owner repo pr_id in
      let diff_response := Http.text (http_get w req) in
      fetch_diffs owner repo rest
                  (Py.dict_set diffs pr_id (Py.PyStr diff_response))
                  (log ++ [req])
  end.

(** [get_diffs]: the returned object and the requests issued. *)
Definition get_diffs (owner repo : string) (pr_ids : list string)
  : Py.value * list Http.request :=
  match pr_ids with
  | [] => (Py.PyList [], [])
  | _ :: _ =>
      let '(diffs, log) := fetch_diffs owner repo pr_ids [] [] in
      (Py.PyDict diffs, log)
  end.

End Retrieve.

(** A reference vector index: the stored records that pass the filter, in
    stored order, cut to [top_k].  It stands for a service that honours the
    filter. *)
Definition filtering_index (stored : list Match.t) (top_k : Z)
    (f : metadata_filter) : list Match.t :=
  take (Z.to_nat top_k)
       (List.filter (fun m => passes f (Match.metadata m)) stored).

End Retriever.

(** ** Chat messages ([langchain_core.messages]) *)

Module Msg.

Record tool_call := {
  name : string;
  args : Py.value;
  id : string
}.

Inductive message :=
| SystemMessage (content : string)
| HumanMessage (content : string)
| AIMessage (content : string) (tool_calls : list tool_call)
| ToolMessage (tool_call_id name content : string).

End Msg.

(** [str(x)]: a string is its own rendering; for the other values the
    rendering is Python's [repr], taken as given. *)
Definition py_str (repr : Py.value -> string) (x : Py.value) : string :=
  match x with
  | Py.PyStr s => s
  | _ => repr x
  end.

(** ** agent_tools.py *)

Module AgentTools.

(** What the tool talks to: the retriever's world, the chat model
    ([chat.invoke(messages).content]) and Python's [repr]. *)
Record world {V : Type} := {
  retriever : Retriever.world V;
  chat_invoke : list Msg.message -> string;
  repr : Py.value -> string
}.
Arguments world : clear implicits.

Definition system_prompt : string := "
        You are a professional software engineer that can read code and understand the changes made in a PR.
        You will be given a list of PRs and their diffs, and an issue description.
        Your job is to find the PR that is most relevant to the issue description.
        You will output the PR id and url of the most relevant PR with a description of the changes made in the PR.
        Do not suggest any fixes, just the PR id and the description of the changes found within.
        For the description of changes, denote which lines each significant change is on.
        ".

Definition human_prompt (diffs_with_metadata issue_description : string)
  : string :=
  "
        Here are the PRs most likely to have caused the issue, in the form of a dictionary with the PR id as the key and the diff as the value:
        " +:+ diffs_with_metadata +:+ "
        
        Which code PR is most relevant to the issue description: " +:+ issue_description +:+ "?
        ".

Section Tool.

Context {V : Type}.
Variable w : world V.

(** The dict comprehension of line 28; [None] when a subscript of [diffs]
    raises. *)
Fixpoint with_metadata (diffs : Py.value) (prs : list (string * string))
    (acc : list (string * Py.value)) : option (list (string * Py.value)) :=
  match prs with
  | [] => Some acc
  | (pr_id, pr_url) :: rest =>
      match Py.subscript diffs pr_id with
      | None => None
      | Some diff =>
          with_metadata diffs rest
            (Py.dict_set acc pr_id
               (Py.PyDict [("url", Py.PyStr pr_url); ("diff", diff)]))
      end
  end.

(** [find_relevant_diffs]: the returned object ([None] when an exception
    escapes) and the requests issued. *)
Definition find_relevant_diffs (issue_description : string)
  : option Py.value * list Http.request :=
  let search_results :=
    Retriever.semantic_search (retriever w) issue_description "rootly" 5 in
  let prs :=
    map (fun result =>
           (Match.id result, Metadata.url (Match.metadata result)))
        search_results in
  let pr_ids := map fst prs in
  let '(diffs, log) :=
    Retriever.get_diffs (retriever w) "ethanbailie" "agentic_code_observer"
                        pr_ids in
  match with_metadata diffs prs [] with
  | None => (None, log)
  | Some diffs_with_metadata =>
      let messages :=
        [Msg.SystemMessage system_prompt;
         Msg.HumanMessage
           (human_prompt (py_str (repr w) (Py.PyDict diffs_with_metadata))
                         issue_description)] in
      let response_content := chat_invoke w messages in
      (Some (Py.PyDict [("messages", Py.PyList [Py.PyStr response_content])]),
       log)
  end.

End Tool.

End AgentTools.

(** ** agent.py *)

Module Agent.

Import Msg.

Definition agent_prompt : string := "
You are a professional software engineer that can read code and understand the changes made in a PR.
You will be given an issue description and you need to find the PR that is most relevant to the issue description.
You need to output which PR is most relevant, and a summary of the changes made in the PR, with some recommendations for fixing the issue.

When trying to find a way to resolve the issue, think step by step about how you would fix the issue if you were a human developer.
Include the PR URL andline numbers for suggestions if possible.
 
If absolutely necessary, you can perform web searches for more information on how to solve the issue.
".

(** A tool: its name and what invoking it on the arguments returns. *)
Record tool := {
  tool_name : string;
  invoke : Py.value -> Py.value
}.

(** [{t.name: t for t in tools}]: a later tool replaces an earlier one of
    the same name. *)
Definition tools_by_name (tools : list tool) : gmap string tool :=
  foldl (fun m t => <[tool_name t := t]> m) ∅ tools.

(** The agent: [self.system], [self.tools], the bound model (content and
    tool calls of the [AIMessage] it answers with) and Python's [repr]. *)
Record t := {
  system : string;
  tools : gmap string tool;
  model_invoke : list message -> string * list tool_call;
  repr : Py.value -> string
}.

(** The nodes of the graph. *)
Inductive node := Llm | Action | END.

Section Graph.

Variable self : t.

(** [state['messages'][-1].tool_calls]; [None] when the list is empty or
    its last message carries no tool calls attribute. *)
Definition last_tool_calls (messages : list message)
  : option (list tool_call) :=
  match last messages with
  | Some (AIMessage _ tool_calls) => Some tool_calls
  | _ => None
  end.

(** [exists_action] *)
Definition exists_action (messages : list message) : option bool :=
  match last_tool_calls messages with
  | Some tool_calls => Some (0 <? Z.of_nat (length tool_calls))
  | None => None
  end.

(** [call_llm]: the messages the node returns. *)
Definition call_llm (messages : list message) : list message :=
  let messages :=
    if String.eqb (system self) EmptyString then messages
    else [SystemMessage (system self)] ++ messages in
  let '(content, tool_calls) := model_invoke self messages in
  [AIMessage content tool_calls].

(** The [for] loop of [take_action]: the results so far, and the tools
    invoked so far with their arguments. *)
Fixpoint run_tool_calls (tool_calls : list tool_call)
    (results : list message) (invoked : list (string * Py.value))
  : list message * list (string * Py.value) :=
  match tool_calls with
  | [] => (results, invoked)
  | c :: rest =>
      match tools self !! name c with
      | None =>
          let result := Py.PyStr "bad tool name, retry" in
          run_tool_calls rest
            (results ++ [ToolMessage (id c) (name c)
                                     (py_str (repr self) result)])
            invoked
      | Some tl =>
          let result := invoke tl (args c) in
          run_tool_calls rest
            (results ++ [ToolMessage (id c) (name c)
                                     (py_str (repr self) result)])
            (invoked ++ [(name c, args c)])
      end
  end.

(** [take_action]: the messages the node returns and the tools it
    invoked. *)
Definition take_action (messages : list message)
  : option (list message * list (string * Py.value)) :=
  match last_tool_calls messages with
  | Some tool_calls => Some (run_tool_calls tool_calls [] [])
  | None => None
  end.

(** One step of the compiled graph: run the node, add what it returns to
    the state ([operator.add]) and follow the edge.  [None] when the graph
    has ended or an exception escapes. *)
Definition step (n : node) (messages : list message)
  : option (node * list message) :=
  match n with
  | Llm =>
      let messages := messages ++ call_llm messages in
      match exists_action messages with
      | Some true => Some (Action, messages)
      | Some false => Some (END, messages)
      | None => None
      end
  | Action =>
      match take_action messages with
      | Some (results, _) => Some (Llm, messages ++ results)
      | None => None
      end
  | END => None
  end.

(** [graph.stream] from the entry point, for at most [fuel] steps: the
    node and state reached. *)
Fixpoint run (fuel : nat) (n : node) (messages : list message)
  : option (node * list message) :=
  match fuel with
  | O => Some (n, messages)
  | S fuel' =>
      match n with
      | END => Some (END, messages)
      | _ =>
          match step n messages with
          | Some (n', messages') => run fuel' n' messages'
          | None => None
          end
      end
  end.

End Graph.

End Agent.

(** ** data_pull.py *)

Module DataPull.

Definition owner : string := "ethanbailie".
Definition repo : string := "agentic_code_observer".

(** The script: fetch the pull requests of the last 36 hours, embed them
    and upsert the vectors into the index [rootly].  The result is the
    vector index service afterwards, if the script gets that far within
    [fuel] iterations of the collector's loop, and the HTTP requests
    issued. *)
Definition main {V : Type} (w : Embedder.world)
    (embed_documents : list string -> list V) (fuel : nat)
    (pc : Embedder.pinecone V)
  : option (Embedder.pinecone V) * list Http.request :=
  match Embedder.fetch_recent_prs w owner repo fuel 36 with
  | (Some recent_pull_requests, log) =>
      let embed_vectors :=
        Embedder.embed_pr_data embed_documents recent_pull_requests in
      (Some (Embedder.upsert_to_pinecone embed_vectors "rootly" pc), log)
  | (None, log) => (None, log)
  end.

End DataPull.

(** ** Sample data *)

Module Sample.

Definition pr_a : PrDetails.t :=
  {| PrDetails.id := 1876543210;
     PrDetails.title := "Fix upsert";
     PrDetails.state := "closed";
     PrDetails.description := Some "Batch the vectors";
     PrDetails.updated_at := 1714564800000000;
     PrDetails.url :=
       "https://github.com/ethanbailie/agentic_code_observer/pull/42";
     PrDetails.merge_description := "Merge pull request #42" |}.

Definition pr_b : PrDetails.t :=
  {| PrDetails.id := 1876543999;
     PrDetails.title := "Bump deps";
     PrDetails.state := "closed";
     PrDetails.description := None;
     PrDetails.updated_at := 1714568400000000;
     PrDetails.url :=
       "https://github.com/ethanbailie/agentic_code_observer/pull/43";
     PrDetails.merge_description := "Merge pull request #43" |}.

(** An embedding service that answers with a single vector whatever it is
    sent. *)
Definition one_vector (texts : list string) : list (list Z) := [[1; 0; 0]].

(** An embedding service that answers with one vector per text. *)
Definition per_text (texts : list string) : list (list Z) :=
  map (fun _ => [1; 0; 0]) texts.

(** A vector index holding one record updated thirteen hours before the
    query and one updated an hour before it. *)
Definition query_time : Z := 1714608000000000.

Definition stale_match : Match.t :=
  {| Match.id := "42";
     Match.score := 9 # 10;
     Match.metadata :=
       {| Metadata.title := "Fix upsert";
          Metadata.state := "closed";
          Metadata.updated_at := query_time - 13 * 3600 * 1000000;
          Metadata.url :=
            "https://github.com/ethanbailie/agentic_code_observer/pull/42" |}
  |}.

Definition fresh_match : Match.t :=
  {| Match.id := "43";
     Match.score := 1 # 2;
     Match.metadata :=
       {| Metadata.title := "Bump deps";
          Metadata.state := "closed";
          Metadata.updated_at := query_time - 3600 * 1000000;
          Metadata.url :=
            "https://github.com/ethanbailie/agentic_code_observer/pull/43" |}
  |}.

(** A host that answers every request with status 200 and a body naming
    the url. *)
Definition echo_host (req : Http.request) : Http.response :=
  {| Http.status_code := 200;
     Http.json := [];
     Http.commit_message := None;
     Http.text := "diff of " +:+ Http.url req |}.

Definition retriever_world : Retriever.world (list Z) :=
  {| Retriever.now := query_time;
     Retriever.embed_query := fun _ => [1; 0; 0];
     Retriever.index_query :=
       fun _ _ top_k _ f =>
         Retriever.filtering_index [stale_match; fresh_match] top_k f;
     Retriever.http_get := echo_host |}.

(** The tool's world: the retriever above and a chat model with a fixed
    answer. *)
Definition verdict : string := "PR 43 is the most relevant.".

Definition tools_world : AgentTools.world (list Z) :=
  {| AgentTools.retriever := retriever_world;
     AgentTools.chat_invoke := fun _ => verdict;
     AgentTools.repr := fun _ => "{...}" |}.

(** An agent with one tool, a model that asks for a tool the agent does not
    have and for the one it has, and the state after that answer. *)
Definition search_tool : Agent.tool :=
  {| Agent.tool_name := "tavily_search_results_json";
     Agent.invoke := fun _ => Py.PyStr "four results" |}.

Definition bad_call : Msg.tool_call :=
  {| Msg.name := "find_diffs";
     Msg.args := Py.PyDict [("issue_description", Py.PyStr "Broken upsert")];
     Msg.id := "call_0" |}.

Definition good_call : Msg.tool_call :=
  {| Msg.name := "tavily_search_results_json";
     Msg.args := Py.PyDict [("query", Py.PyStr "pinecone upsert")];
     Msg.id := "call_1" |}.

Definition agent : Agent.t :=
  {| Agent.system := Agent.agent_prompt;
     Agent.tools := Agent.tools_by_name [search_tool];
     Agent.model_invoke := fun _ => ("", [bad_call; good_call]);
     Agent.repr := fun _ => "{...}" |}.

Definition acting_state : list Msg.message :=
  [Msg.HumanMessage "Broken pinecone upsert";
   Msg.AIMessage "" [bad_call; good_call]].

(** Pull requests and hosts for the collector. *)
Definition noon : Datetime.t :=
  {| Datetime.year := 2024; Datetime.month := 5; Datetime.day := 1;
     Datetime.hour := 12; Datetime.minute := 0; Datetime.second := 0;
     Datetime.microsecond := 0 |}.

(** Half a second after [noon]. *)
Definition cutoff : Datetime.t :=
  {| Datetime.year := 2024; Datetime.month := 5; Datetime.day := 1;
     Datetime.hour := 12; Datetime.minute := 0; Datetime.second := 0;
     Datetime.microsecond := 500000 |}.

Definition open_pull : Pull.t :=
  {| Pull.id := 1876543100;
     Pull.title := "Try a new ranker";
     Pull.body := None;
     Pull.state := "open";
     Pull.updated_at := "2024-05-02T08:00:00Z";
     Pull.html_url :=
       "https://github.com/ethanbailie/agentic_code_observer/pull/41";
     Pull.merged_at := None;
     Pull.merge_commit_sha := "" |}.

Definition merged_pull : Pull.t :=
  {| Pull.id := 1876543999;
     Pull.title := "Bump deps";
     Pull.body := None;
     Pull.state := "closed";
     Pull.updated_at := "2024-05-02T09:00:00Z";
     Pull.html_url :=
       "https://github.com/ethanbailie/agentic_code_observer/pull/43";
     Pull.merged_at := Some "2024-05-02T09:00:00Z";
     Pull.merge_commit_sha := "9fceb02" |}.

(** Merged, and last updated at [noon]. *)
Definition stale_pull : Pull.t :=
  {| Pull.id := 1876543210;
     Pull.title := "Fix upsert";
     Pull.body := Some "Batch the vectors";
     Pull.state := "closed";
     Pull.updated_at := "2024-05-01T12:00:00Z";
     Pull.html_url :=
       "https://github.com/ethanbailie/agentic_code_observer/pull/42";
     Pull.merged_at := Some "2024-05-01T12:00:00Z";
     Pull.merge_commit_sha := "1b2c3d4" |}.

(** The page a list request asks for. *)
Definition page_of (req : Http.request) : option Z :=
  match Py.dict_get (Http.params req) "page" with
  | Some (Py.PyInt page) => Some page
  | _ => None
  end.

(** A host whose list endpoint serves the given pages with the given
    statuses, and whose commit endpoint always answers. *)
Definition host (pages : Z -> Z * list Pull.t) (req : Http.request)
  : Http.response :=
  match page_of req with
  | Some page =>
      {| Http.status_code := (pages page).1;
         Http.json := (pages page).2;
         Http.commit_message := None;
         Http.text := "" |}
  | None =>
      {| Http.status_code := 200;
         Http.json := [];
         Http.commit_message := Some "Merge pull request";
         Http.text := "" |}
  end.

Definition collector_world (pages : Z -> Z * list Pull.t) : Embedder.world :=
  {| Embedder.http_get := host pages;
     Embedder.recency_of := fun _ => cutoff;
     Embedder.strptime_timestamp := fun _ => 1714564800000000 |}.

(** Page 1 holds an open pull request, page 2 a merged one. *)
Definition open_then_merged (page : Z) : Z * list Pull.t :=
  if page =? 1 then (200, [open_pull])
  else if page =? 2 then (200, [merged_pull])
  else (200, []).

(** Page 1 is served, page 2 is refused. *)
Definition refused_on_page_2 (page : Z) : Z * list Pull.t :=
  if page =? 1 then (200, [merged_pull]) else (403, []).

(** Page 1 holds a pull request updated half a second before the cutoff. *)
Definition stale_only (page : Z) : Z * list Pull.t :=
  if page =? 1 then (200, [stale_pull]) else (200, []).

(** Every page holds a recently updated, merged pull request. *)
Definition always_recent (page : Z) : Z * list Pull.t := (200, [merged_pull]).

(** An agent whose model answers at once, without asking for a tool. *)
Definition quiet_agent : Agent.t :=
  {| Agent.system := Agent.agent_prompt;
     Agent.tools := Agent.tools_by_name [search_tool];
     Agent.model_invoke := fun _ => ("PR 43 caused it.", []);
     Agent.repr := fun _ => "{...}" |}.

(** A vector index service without any index. *)
Definition no_index : Embedder.pinecone (list Z) :=
  {| Embedder.indexes := ∅; Embedder.calls := [] |}.

(** A retriever whose index holds only the stale record, and the tool's
    world over it. *)
Definition stale_retriever_world : Retriever.world (list Z) :=
  {| Retriever.now := query_time;
     Retriever.embed_query := fun _ => [1; 0; 0];
     Retriever.index_query :=
       fun _ _ top_k _ f => Retriever.filtering_index [stale_match] top_k f;
     Retriever.http_get := echo_host |}.

Definition stale_tools_world : AgentTools.world (list Z) :=
  {| AgentTools.retriever := stale_retriever_world;
     AgentTools.chat_invoke := fun _ => verdict;
     AgentTools.repr := fun _ => "{...}" |}.

End Sample.

(** * Theorems *)

(** ** Python built-ins *)

Lemma zip3_length {A B C} (a : list A) (b : list B) (c : list C) :
  length (Py.zip3 a b c)
  = Nat.min (length a) (Nat.min (length b) (length c)).
Proof.
  revert b c. induction a as [|x a IH]; intros [|y b] [|z c]; simpl; try lia.
  rewrite IH. lia.
Qed.

Lemma zip3_lookup {A B C} (a : list A) (b : list B) (c : list C) i x y z :
  a !! i = Some x -> b !! i = Some y -> c !! i = Some z ->
  Py.zip3 a b c !! i = Some (x, y, z).
Proof.
  revert b c i.
  induction a as [|x' a IH]; intros [|y' b] [|z' c] [|i]; simpl;
    try discriminate.
  - intros. congruence.
  - apply IH.
Qed.

Lemma zip3_lookup_inv {A B C} (a : list A) (b : list B) (c : list C) i t :
  Py.zip3 a b c !! i = Some t ->
  a !! i = Some t.1.1 /\ b !! i = Some t.1.2 /\ c !! i = Some t.2.
Proof.
  revert b c i.
  induction a as [|x' a IH]; intros [|y' b] [|z' c] [|i]; simpl;
    try discriminate.
  - intros [= <-]. auto.
  - apply IH.
Qed.

(** [split] never returns the empty list, so [l[-1]] is defined. *)
Lemma split_nonempty sep s : Py.split sep s <> [].
Proof.
  destruct s as [|c s]; simpl; [discriminate|].
  destruct (Ascii.eqb c sep); [discriminate|].
  destruct (Py.split sep s); discriminate.
Qed.

(** What [s.split(sep)[-1]] is: the text after the last separator of [s],
    or all of [s] when it has none. *)
Lemma split_last sep s : forall h t,
  Py.split sep s = h :: t ->
  ~ In sep (list_ascii_of_string (List.last (h :: t) EmptyString))
  /\ (t = [] -> s = h)
  /\ (t <> [] ->
      exists before,
        s = before +:+ String sep (List.last (h :: t) EmptyString)).
Proof.
  induction s as [|c s IH]; intros h t Hsplit.
  - injection Hsplit as <- <-. repeat split; [simpl; tauto|congruence].
  - cbn [Py.split] in Hsplit.
    destruct (Py.split sep s) as [|h' t'] eqn:Hs;
      [exfalso; exact (split_nonempty sep s Hs)|].
    destruct (IH h' t' eq_refl) as (Hno & Hone & Hmore).
    destruct (Ascii.eqb_spec c sep) as [->|Hne].
    + injection Hsplit as <- <-.
      change (List.last (EmptyString :: h' :: t') EmptyString)
        with (List.last (h' :: t') EmptyString).
      split; [exact Hno|]. split; [discriminate|]. intros _.
      destruct t' as [|x t'].
      * exists EmptyString. rewrite (Hone eq_refl). reflexivity.
      * destruct Hmore as [before ->]; [discriminate|].
        exists (String sep before). reflexivity.
    + injection Hsplit as <- <-. destruct t' as [|x t'].
      * rewrite (Hone eq_refl) in *. repeat split; [|congruence].
        simpl in *. intros [H|H]; [congruence|tauto].
      * change (List.last (String c h' :: x :: t') EmptyString)
          with (List.last (h' :: x :: t') EmptyString).
        split; [exact Hno|]. split; [discriminate|]. intros _.
        destruct Hmore as [before ->]; [discriminate|].
        exists (String c before). reflexivity.
Qed.

(** ** The embedding step *)

Section EmbedFacts.

Context {V : Type}.
Variable embed_documents : list string -> list V.

Lemma embed_pr_data_unfold prs :
  Embedder.embed_pr_data embed_documents prs
  = Py.zip3 (map Embedder.pr_id prs)
            (match prs with
             | [] => []
             | _ => embed_documents (map Embedder.text_to_embed prs)
             end)
            (map Embedder.metadata prs).
Proof. destruct prs; reflexivity. Qed.

(** C1, as the code has it: [embed_pr_data] never fails on a length
    mismatch.  It returns as many vectors as the shorter of the input list
    and the service's answer; entry [i] of the result pairs record [i] with
    vector [i] of the answer, in input order; and when the service answers
    with exactly one vector per text the result has exactly one vector per
    record. *)
Theorem embed_pr_data_zip (prs : list PrDetails.t) :
  let answer := embed_documents (map Embedder.text_to_embed prs) in
  let out := Embedder.embed_pr_data embed_documents prs in
  length out = Nat.min (length prs) (length answer)
  /\ (forall i pr v,
        prs !! i = Some pr -> answer !! i = Some v ->
        out !! i = Some (Embedder.pr_id pr, v, Embedder.metadata pr))
  /\ (length answer = length prs -> length out = length prs).
Proof.
  intros answer out.
  assert (Hlen : length out = Nat.min (length prs) (length answer)).
  { subst out answer. rewrite embed_pr_data_unfold, zip3_length.
    rewrite !length_map. destruct prs; cbn [length map]; lia. }
  split; [exact Hlen|]. split; [|lia].
  intros i pr v Hpr Hv. subst out answer.
  rewrite embed_pr_data_unfold. apply zip3_lookup.
  - rewrite list_lookup_fmap, Hpr. reflexivity.
  - destruct prs; [discriminate|exact Hv].
  - rewrite list_lookup_fmap, Hpr. reflexivity.
Qed.

(** C2, as the code has it: the identifier of every produced vector is the
    text after the last [/] of the url of the record at the same position
    (for a pull request, its number), not the record's [id] field. *)
Theorem embed_pr_data_identifier (prs : list PrDetails.t) i ident v md :
  Embedder.embed_pr_data embed_documents prs !! i = Some (ident, v, md) ->
  exists pr,
    prs !! i = Some pr
    /\ ident = Py.last_item (Py.split "/"%char (PrDetails.url pr))
    /\ md = Embedder.metadata pr.
Proof.
  rewrite embed_pr_data_unfold. intros H.
  apply zip3_lookup_inv in H. simpl in H. destruct H as (Hid & _ & Hmd).
  rewrite list_lookup_fmap in Hid. rewrite list_lookup_fmap in Hmd.
  destruct (prs !! i) as [pr|]; [|discriminate].
  exists pr. simpl in Hid, Hmd. split; [reflexivity|].
  split; [injection Hid as <-; reflexivity|congruence].
Qed.

End EmbedFacts.

(** C1 fails as stated: the service answers two texts with one vector, and
    the step returns one vector instead of two or an error. *)
Lemma embed_pr_data_truncates :
  let prs := [Sample.pr_a; Sample.pr_b] in
  length (Sample.one_vector (map Embedder.text_to_embed prs)) <> length prs
  /\ Embedder.embed_pr_data Sample.one_vector prs
     = [("42", [1; 0; 0], Embedder.metadata Sample.pr_a)]
  /\ length (Embedder.embed_pr_data Sample.one_vector prs) <> length prs.
Proof. vm_compute. repeat split; discriminate. Qed.

(** C2 fails as stated: the record's id is 1876543210 and the vector's
    identifier is ["42"], which is not even the decimal rendering of the
    id. *)
Lemma embed_pr_data_identifier_not_id :
  PrDetails.id Sample.pr_a = 1876543210
  /\ map (fun x => x.1.1)
         (Embedder.embed_pr_data Sample.per_text [Sample.pr_a]) = ["42"]
  /\ "42" <> pretty (PrDetails.id Sample.pr_a).
Proof. vm_compute. repeat split; discriminate. Qed.

Lemma embed_pr_data_identifier_witness :
  exists pr,
    [Sample.pr_a; Sample.pr_b] !! 1%nat = Some pr
    /\ "43" = Py.last_item (Py.split "/"%char (PrDetails.url pr))
    /\ Embedder.metadata Sample.pr_b = Embedder.metadata pr.
Proof.
  apply (embed_pr_data_identifier Sample.per_text
           [Sample.pr_a; Sample.pr_b] 1%nat "43" [1; 0; 0]).
  reflexivity.
Defined.

(** ** The vector index *)

Section UpsertFacts.

Context {V : Type}.

(** C10: with an empty vector list [upsert_to_pinecone] returns at once
    and the service is left as it was: no call is received (no index
    listing, no index creation, no upsert) and no index appears, whether or
    not the named index exists.  The empty list is the only input for which
    the service receives no call. *)
Theorem upsert_to_pinecone_empty (index_name : string)
    (pc : Embedder.pinecone V) :
  let pc' := Embedder.upsert_to_pinecone [] index_name pc in
  pc' = pc
  /\ Embedder.calls pc' = Embedder.calls pc
  /\ Embedder.indexes pc' = Embedder.indexes pc
  /\ (forall vectors,
        Embedder.calls (Embedder.upsert_to_pinecone vectors index_name pc)
        = Embedder.calls pc ->
        vectors = []).
Proof.
  cbn. repeat split. intros [|x vectors] H; [reflexivity|].
  apply (f_equal length) in H. unfold Embedder.upsert_to_pinecone in H.
  cbn [Embedder.received Embedder.indexes] in H.
  destruct (Embedder.indexes pc !! index_name); cbn in H;
    rewrite !length_app in H; cbn in H; lia.
Qed.

(** By contrast a non-empty list on a service without the index lists the
    indexes, creates the index and upserts, in that order. *)
Lemma upsert_to_pinecone_creates x vectors index_name
    (pc : Embedder.pinecone V) :
  Embedder.indexes pc !! index_name = None ->
  Embedder.calls (Embedder.upsert_to_pinecone (x :: vectors) index_name pc)
  = Embedder.calls pc
    ++ [Embedder.ListIndexes;
        Embedder.CreateIndex index_name 1024 "cosine" "aws" "us-east-1";
        Embedder.Upsert index_name (x :: vectors)].
Proof.
  intros Hnone. unfold Embedder.upsert_to_pinecone.
  cbn [Embedder.received Embedder.indexes]. rewrite Hnone.
  cbn. rewrite <- !app_assoc. reflexivity.
Qed.

End UpsertFacts.

(** ** The retriever *)

Section RetrieverFacts.

Context {V : Type}.
Variable w : Retriever.world V.

Lemma passes_gte_updated_at bound md :
  Retriever.passes (Retriever.Gte "updated_at" bound) md = true
  <-> bound <= Metadata.updated_at md.
Proof. cbn. apply Z.leb_le. Qed.

(** C3: when the vector index honours the metadata filter it is sent,
    every record [semantic_search] returns has a stored [updated_at] of at
    least the query time minus twelve hours; no older record appears. *)
Theorem semantic_search_recent :
  (forall name vector top_k include_metadata f,
      Forall (fun m => Retriever.passes f (Match.metadata m) = true)
             (Retriever.index_query w name vector top_k include_metadata f)) ->
  forall issue_description index_name top_k m,
    In m (Retriever.semantic_search w issue_description index_name top_k) ->
    Retriever.now w - 12 * 3600 * 1000000
    <= Metadata.updated_at (Match.metadata m).
Proof.
  intros Hhonours issue_description index_name top_k m Hin.
  unfold Retriever.semantic_search in Hin.
  specialize (Hhonours index_name (Retriever.embed_query w issue_description)
                top_k true
                (Retriever.Gte "updated_at"
                   (Retriever.now w - Retriever.twelve_hours))).
  rewrite List.Forall_forall in Hhonours.
  apply Hhonours in Hin. apply passes_gte_updated_at in Hin.
  exact Hin.
Qed.

Lemma fetch_diffs_log owner repo pr_ids diffs log :
  (Retriever.fetch_diffs w owner repo pr_ids diffs log).2
  = log ++ map (Retriever.diff_request owner repo) pr_ids.
Proof.
  revert diffs log. induction pr_ids as [|pr_id rest IH]; intros; simpl.
  - rewrite app_nil_r. reflexivity.
  - rewrite IH, <- app_assoc. reflexivity.
Qed.

(** On a non-empty id list the returned object is a dict, and one request
    per id is issued, in order. *)
Lemma get_diffs_nonempty owner repo pr_id rest :
  exists diffs,
    Retriever.get_diffs w owner repo (pr_id :: rest)
    = (Py.PyDict diffs,
       map (Retriever.diff_request owner repo) (pr_id :: rest)).
Proof.
  unfold Retriever.get_diffs.
  pose proof (fetch_diffs_log owner repo (pr_id :: rest) [] []) as Hlog.
  destruct (Retriever.fetch_diffs w owner repo (pr_id :: rest) [] [])
    as [diffs log].
  exists diffs. simpl in Hlog. rewrite Hlog. reflexivity.
Qed.

(** C6, as the code has it: for the empty id list [get_diffs] returns the
    empty list, not a mapping, and issues no request; the empty id list is
    the only one for which no request is issued. *)
Theorem get_diffs_empty (owner repo : string) :
  Retriever.get_diffs w owner repo [] = (Py.PyList [], [])
  /\ (forall pr_ids,
        (Retriever.get_diffs w owner repo pr_ids).2 = [] -> pr_ids = []).
Proof.
  split; [reflexivity|]. intros [|pr_id rest] H; [reflexivity|].
  destruct (get_diffs_nonempty owner repo pr_id rest) as [diffs Hd].
  rewrite Hd in H. discriminate.
Qed.

End RetrieverFacts.

(** The filtering index honours every filter. *)
Lemma filtering_index_honours stored top_k f :
  Forall (fun m => Retriever.passes f (Match.metadata m) = true)
         (Retriever.filtering_index stored top_k f).
Proof.
  unfold Retriever.filtering_index. apply List.Forall_forall.
  intros m Hin. apply list_elem_of_In in Hin.
  apply elem_of_take in Hin as (i & Hi & _).
  apply list_elem_of_lookup_2, list_elem_of_In, List.filter_In in Hi.
  apply Hi.
Qed.

Lemma semantic_search_recent_witness :
  Retriever.semantic_search Sample.retriever_world "Broken pinecone upsert"
                            "rootly" 5 = [Sample.fresh_match]
  /\ Retriever.now Sample.retriever_world - 12 * 3600 * 1000000
     <= Metadata.updated_at (Match.metadata Sample.fresh_match).
Proof.
  split; [reflexivity|].
  apply (semantic_search_recent Sample.retriever_world
           (fun _ _ top_k _ f =>
              filtering_index_honours
                [Sample.stale_match; Sample.fresh_match] top_k f)
           "Broken pinecone upsert" "rootly" 5 Sample.fresh_match).
  left. reflexivity.
Defined.

(** C6 fails as stated: what comes back for the empty id list is a list,
    which is not the empty mapping. *)
Lemma get_diffs_empty_not_mapping :
  (Retriever.get_diffs Sample.retriever_world "ethanbailie"
                       "agentic_code_observer" []).1 = Py.PyList []
  /\ (Retriever.get_diffs Sample.retriever_world "ethanbailie"
                          "agentic_code_observer" []).1 <> Py.PyDict [].
Proof. split; [reflexivity|discriminate]. Qed.

(** ** The relevance tool *)

Lemma dict_get_set d k v k' :
  Py.dict_get (Py.dict_set d k v) k'
  = if String.eqb k k' then Some v else Py.dict_get d k'.
Proof.
  induction d as [|[k0 v0] d IH]; simpl.
  - reflexivity.
  - destruct (String.eqb k0 k) eqn:E0; simpl.
    + apply String.eqb_eq in E0. subst k0.
      destruct (String.eqb k k'); reflexivity.
    + rewrite IH. destruct (String.eqb k0 k') eqn:E1; [|reflexivity].
      apply String.eqb_eq in E1. subst k0. rewrite String.eqb_sym, E0.
      reflexivity.
Qed.

Section ToolFacts.

Context {V : Type}.
Variable w : AgentTools.world V.

Lemma fetch_diffs_keys owner repo pr_ids diffs log k :
  In k pr_ids \/ is_Some (Py.dict_get diffs k) ->
  is_Some (Py.dict_get
             (Retriever.fetch_diffs (AgentTools.retriever w) owner repo
                                    pr_ids diffs log).1 k).
Proof.
  revert diffs log. induction pr_ids as [|pr_id rest IH]; intros diffs log H.
  - simpl. destruct H as [[]|H]. exact H.
  - simpl. apply IH. rewrite dict_get_set.
    destruct (String.eqb pr_id k) eqn:E.
    + right. eauto.
    + apply String.eqb_neq in E. destruct H as [[H|H]|H]; auto.
      congruence.
Qed.

Lemma with_metadata_total d prs acc :
  (forall p, In p prs -> is_Some (Py.dict_get d p.1)) ->
  is_Some (AgentTools.with_metadata (Py.PyDict d) prs acc).
Proof.
  revert acc. induction prs as [|[pr_id pr_url] rest IH]; intros acc H.
  - simpl. eauto.
  - simpl. destruct (H (pr_id, pr_url)) as [diff Hd]; [left; reflexivity|].
    simpl in Hd. rewrite Hd. apply IH. intros p Hp. apply H. right. exact Hp.
Qed.

(** C7: what [find_relevant_diffs] returns.  No exception escapes, and the
    returned object is a dict with the one key [messages] bound to a list
    holding the model's answer; it is never the answer itself. *)
Theorem find_relevant_diffs_wraps_response (issue_description : string) :
  exists messages,
    (AgentTools.find_relevant_diffs w issue_description).1
    = Some (Py.PyDict
              [("messages",
                Py.PyList [Py.PyStr (AgentTools.chat_invoke w messages)])])
    /\ (AgentTools.find_relevant_diffs w issue_description).1
       <> Some (Py.PyStr (AgentTools.chat_invoke w messages)).
Proof.
  unfold AgentTools.find_relevant_diffs.
  set (results := Retriever.semantic_search _ _ _ _).
  set (prs := map _ results).
  assert (Hsome : is_Some (AgentTools.with_metadata
            (Retriever.get_diffs (AgentTools.retriever w) "ethanbailie"
               "agentic_code_observer" (map fst prs)).1 prs [])).
  { destruct prs as [|p prs'] eqn:Eprs.
    - simpl. eauto.
    - cbn [map Retriever.get_diffs].
      destruct (Retriever.fetch_diffs _ _ _ _ _ _) as [diffs log] eqn:Ef.
      cbn [fst]. apply with_metadata_total. intros q Hq.
      replace diffs with
        (Retriever.fetch_diffs (AgentTools.retriever w) "ethanbailie"
           "agentic_code_observer" (p.1 :: map fst prs') [] []).1
        by (rewrite Ef; reflexivity).
      apply fetch_diffs_keys. left.
      change (In q.1 (map fst (p :: prs'))). apply List.in_map. exact Hq. }
  destruct (Retriever.get_diffs _ _ _ _) as [diffs log].
  cbn [fst] in Hsome. destruct Hsome as [dm Hdm]. rewrite Hdm.
  eexists. cbn [fst]. split; [reflexivity|discriminate].
Qed.

End ToolFacts.

(** C7 at a concrete input: the model answers with [Sample.verdict] and the
    tool returns that text inside a list inside a dict. *)
Example find_relevant_diffs_sample :
  (AgentTools.find_relevant_diffs Sample.tools_world
     "Broken pinecone upsert").1
  = Some (Py.PyDict [("messages", Py.PyList [Py.PyStr Sample.verdict])]).
Proof. vm_compute. reflexivity. Qed.

(** ** The agent *)

Section AgentFacts.

Import Msg.
Variable self : Agent.t.

(** The message [take_action] answers one tool call with. *)
Lemma run_tool_calls_results tool_calls results invoked :
  (Agent.run_tool_calls self tool_calls results invoked).1
  = results
    ++ map (fun c =>
              ToolMessage (id c) (name c)
                match Agent.tools self !! name c with
                | None => "bad tool name, retry"
                | Some tl =>
                    py_str (Agent.repr self) (Agent.invoke tl (args c))
                end)
           tool_calls.
Proof.
  revert results invoked.
  induction tool_calls as [|c rest IH]; intros results invoked; simpl.
  - rewrite app_nil_r. reflexivity.
  - destruct (Agent.tools self !! name c) as [tl|];
      rewrite IH, <- app_assoc; reflexivity.
Qed.

(** Only tools of the tool set are invoked. *)
Lemma run_tool_calls_invoked tool_calls results invoked nm a :
  In (nm, a) (Agent.run_tool_calls self tool_calls results invoked).2 ->
  In (nm, a) invoked \/ is_Some (Agent.tools self !! nm).
Proof.
  revert results invoked.
  induction tool_calls as [|c rest IH]; intros results invoked; simpl.
  - auto.
  - destruct (Agent.tools self !! name c) as [tl|] eqn:E; intros H.
    + apply IH in H as [H|H]; [|auto].
      apply List.in_app_or in H as [H|[H|[]]]; [auto|].
      injection H as <- _. right. eauto.
    + apply IH in H. exact H.
Qed.

(** The reasoning step never fails. *)
Lemma step_llm_total messages :
  exists n messages', Agent.step self Agent.Llm messages = Some (n, messages').
Proof.
  unfold Agent.step, Agent.exists_action, Agent.last_tool_calls,
    Agent.call_llm.
  destruct (Agent.model_invoke self _) as [content tool_calls].
  rewrite last_snoc. destruct (0 <? _); eauto.
Qed.

(** C4: in an acting step, a requested tool name that is not in the tool
    set invokes nothing; the step answers that call with a tool message
    telling the model to retry, adds it to the conversation, and hands over
    to the reasoning node, which then runs: the graph does not end. *)
Theorem take_action_unknown_tool messages content tool_calls i c :
  last messages = Some (AIMessage content tool_calls) ->
  tool_calls !! i = Some c ->
  Agent.tools self !! name c = None ->
  exists results invoked,
    Agent.take_action self messages = Some (results, invoked)
    /\ results !! i
       = Some (ToolMessage (id c) (name c) "bad tool name, retry")
    /\ (forall a, ~ In (name c, a) invoked)
    /\ Agent.step self Agent.Action messages
       = Some (Agent.Llm, messages ++ results)
    /\ In (ToolMessage (id c) (name c) "bad tool name, retry")
          (messages ++ results)
    /\ exists n messages',
         Agent.step self Agent.Llm (messages ++ results)
         = Some (n, messages').
Proof.
  intros Hlast Hc Hnone.
  destruct (Agent.run_tool_calls self tool_calls [] [])
    as [results invoked] eqn:Erun.
  assert (Hresults : results !! i
            = Some (ToolMessage (id c) (name c) "bad tool name, retry")).
  { pose proof (run_tool_calls_results tool_calls [] []) as Hr.
    rewrite Erun in Hr. simpl in Hr. rewrite Hr.
    rewrite list_lookup_fmap, Hc. simpl. rewrite Hnone. reflexivity. }
  assert (Htake : Agent.take_action self messages = Some (results, invoked)).
  { unfold Agent.take_action, Agent.last_tool_calls.
    rewrite Hlast, Erun. reflexivity. }
  exists results, invoked. repeat split.
  - exact Htake.
  - exact Hresults.
  - intros a Hin.
    pose proof (run_tool_calls_invoked tool_calls [] [] (name c) a) as Hi.
    rewrite Erun in Hi. destruct (Hi Hin) as [[]|[tl Htl]]. congruence.
  - unfold Agent.step. rewrite Htake. reflexivity.
  - apply List.in_or_app. right. apply list_elem_of_In.
    eapply list_elem_of_lookup_2. exact Hresults.
  - apply step_llm_total.
Qed.

End AgentFacts.

Lemma take_action_unknown_tool_witness :
  exists results invoked,
    Agent.take_action Sample.agent Sample.acting_state
    = Some (results, invoked)
    /\ results !! 0%nat
       = Some (Msg.ToolMessage "call_0" "find_diffs" "bad tool name, retry")
    /\ (forall a, ~ In ("find_diffs", a) invoked)
    /\ Agent.step Sample.agent Agent.Action Sample.acting_state
       = Some (Agent.Llm, Sample.acting_state ++ results)
    /\ In (Msg.ToolMessage "call_0" "find_diffs" "bad tool name, retry")
          (Sample.acting_state ++ results)
    /\ exists n messages',
         Agent.step Sample.agent Agent.Llm (Sample.acting_state ++ results)
         = Some (n, messages').
Proof.
  apply (take_action_unknown_tool Sample.agent Sample.acting_state ""
           [Sample.bad_call; Sample.good_call] 0%nat Sample.bad_call);
    reflexivity.
Defined.

(** ** The change collector: the pagination loop *)

Lemma nil_or_not {A} (l : list A) : l = [] \/ l <> [].
Proof. destruct l; [left; reflexivity|right; discriminate]. Qed.

Section CollectorFacts.

Variable w : Embedder.world.
Variables owner repo : string.
Variable rs : string.

Local Open Scope nat_scope.

Local Abbreviation response p :=
  (Embedder.http_get w (Embedder.page_request owner repo p)).
Local Abbreviation status p := (Http.status_code (response p)).
Local Abbreviation recent p :=
  (List.filter (Embedder.is_recent rs) (Http.json (response p))).
Local Abbreviation request := (Embedder.page_request owner repo).
Local Abbreviation paginate := (Embedder.paginate w owner repo rs).

Lemma page_request_inj p q : request p = request q -> p = q.
Proof. intros [= H]. lia. Qed.

Lemma paginate_abort fuel p acc log :
  status p <> 200%Z ->
  paginate (S fuel) p acc log = (Some Embedder.Aborted, log ++ [request p]).
Proof.
  intros H. cbn [Embedder.paginate].
  destruct (Z.eqb_spec (status p) 200%Z); [contradiction|reflexivity].
Qed.

Lemma paginate_break fuel p acc log :
  status p = 200%Z -> recent p = [] ->
  paginate (S fuel) p acc log
  = (Some (Embedder.Broke acc), log ++ [request p]).
Proof.
  intros Hs Hr. cbn [Embedder.paginate]. rewrite Hs, Hr. reflexivity.
Qed.

Lemma paginate_continue fuel p acc log :
  status p = 200%Z -> recent p <> [] ->
  paginate (S fuel) p acc log
  = paginate fuel (S p) (acc ++ recent p) (log ++ [request p]).
Proof.
  intros Hs Hr. cbn [Embedder.paginate]. rewrite Hs. cbn [Z.eqb Pos.eqb negb].
  destruct (recent p); [contradiction|reflexivity].
Qed.

(** [k] pages in a row that answer 200 with a recent record are all
    fetched and accumulated. *)
Lemma paginate_run k : forall fuel p acc log,
  (forall q, p <= q < p + k -> status q = 200%Z /\ recent q <> []) ->
  paginate (k + fuel) p acc log
  = paginate fuel (p + k)
             (acc ++ concat (map (fun q => recent q) (seq p k)))
             (log ++ map request (seq p k)).
Proof.
  induction k as [|k IH]; intros fuel p acc log H.
  - cbn. rewrite !app_nil_r, Nat.add_0_r. reflexivity.
  - destruct (H p ltac:(lia)) as [Hs Hr].
    change (S k + fuel) with (S (k + fuel)).
    rewrite (paginate_continue _ _ _ _ Hs Hr), IH.
    + cbn [seq map concat]. rewrite <- !app_assoc.
      replace (S p + k) with (p + S k) by lia. reflexivity.
    + intros q Hq. apply H. lia.
Qed.

(** However the loop is left, it was left at some page [p + k] after [k]
    pages that made it go on. *)
Lemma paginate_inv fuel : forall p acc log exit log',
  paginate fuel p acc log = (Some exit, log') ->
  exists k,
    log' = log ++ map request (seq p (S k))
    /\ (forall q, p <= q < p + k -> status q = 200%Z /\ recent q <> [])
    /\ (exit = Embedder.Aborted /\ status (p + k) <> 200%Z
        \/ exit = Embedder.Broke
                    (acc ++ concat (map (fun q => recent q) (seq p k)))
           /\ status (p + k) = 200%Z /\ recent (p + k) = []).
Proof.
  induction fuel as [|fuel IH]; intros p acc log exit log' H.
  - discriminate.
  - destruct (Z.eq_dec (status p) 200%Z) as [Hs|Hs].
    + destruct (nil_or_not (recent p)) as [Hr|Hr].
      * rewrite (paginate_break _ _ _ _ Hs Hr) in H. injection H as <- <-.
        exists 0. rewrite Nat.add_0_r. cbn [seq map concat].
        rewrite app_nil_r. split; [reflexivity|]. split; [lia|].
        right. auto.
      * rewrite (paginate_continue _ _ _ _ Hs Hr) in H.
        apply IH in H as (k & Hlog & Hgo & Hexit).
        exists (S k). replace (p + S k) with (S p + k) by lia.
        split; [|split].
        -- rewrite Hlog, <- app_assoc. reflexivity.
        -- intros q Hq. destruct (Nat.eq_dec q p) as [->|Hne].
           ++ split; [exact Hs|exact Hr].
           ++ apply Hgo. lia.
        -- cbn [seq map concat].
           rewrite <- app_assoc in Hexit. exact Hexit.
    + rewrite (paginate_abort _ _ _ _ Hs) in H. injection H as <- <-.
      exists 0. rewrite Nat.add_0_r. split; [reflexivity|].
      split; [lia|]. left. auto.
Qed.

(** Whatever the fuel, the requests of the loop are those for pages
    [p], [p + 1], ... in this order. *)
Lemma paginate_log fuel : forall p acc log,
  exists n, n <= fuel /\ (0 < fuel -> 0 < n)
    /\ (paginate fuel p acc log).2 = log ++ map request (seq p n).
Proof.
  induction fuel as [|fuel IH]; intros p acc log.
  - exists 0. cbn. rewrite app_nil_r. split; [lia|]. split; [lia|].
    reflexivity.
  - destruct (Z.eq_dec (status p) 200%Z) as [Hs|Hs].
    + destruct (nil_or_not (recent p)) as [Hr|Hr].
      * rewrite (paginate_break _ _ _ _ Hs Hr). exists 1.
        split; [lia|]. split; [lia|]. reflexivity.
      * rewrite (paginate_continue _ _ _ _ Hs Hr).
        destruct (IH (S p) (acc ++ recent p) (log ++ [request p]))
          as (n & Hn & _ & Hlog).
        exists (S n). split; [lia|]. split; [lia|]. rewrite Hlog.
        rewrite <- app_assoc. reflexivity.
    + rewrite (paginate_abort _ _ _ _ Hs). exists 1.
      split; [lia|]. split; [lia|]. reflexivity.
Qed.

Lemma collect_merged_spec prs : forall all_prs log,
  Embedder.collect_merged w owner repo prs all_prs log
  = (all_prs
     ++ map (fun pr =>
               Embedder.pr_details w pr
                 (Embedder.http_get w
                    (Embedder.commit_request owner repo
                       (Pull.merge_commit_sha pr))))
            (List.filter (fun pr => Py.truthy (Pull.merged_at pr)) prs),
     log
     ++ map (fun pr =>
               Embedder.commit_request owner repo (Pull.merge_commit_sha pr))
            (List.filter (fun pr => Py.truthy (Pull.merged_at pr)) prs)).
Proof.
  induction prs as [|pr rest IH]; intros all_prs log.
  - cbn. rewrite !app_nil_r. reflexivity.
  - cbn [Embedder.collect_merged List.filter].
    destruct (Py.truthy (Pull.merged_at pr)).
    + rewrite IH. cbn [map]. rewrite <- !app_assoc. reflexivity.
    + apply IH.
Qed.

End CollectorFacts.

(** ** Timestamps as text *)

Section DatetimeFacts.

Local Open Scope N_scope.

Lemma compare_app a b s t :
  String.length a = String.length b ->
  String.compare (a +:+ s) (b +:+ t)
  = match String.compare a b with
    | Eq => String.compare s t
    | c => c
    end.
Proof.
  revert b. induction a as [|x a IH]; intros [|y b] Hlen; try discriminate.
  - reflexivity.
  - change (String.compare (String x (a +:+ s)) (String y (b +:+ t))
            = match String.compare (String x a) (String y b) with
              | Eq => String.compare s t
              | c => c
              end).
    cbn [String.compare].
    destruct (Ascii.compare x y); [|reflexivity..].
    apply IH. simpl in Hlen. lia.
Qed.

Lemma length_append a b :
  String.length (a +:+ b) = (String.length a + String.length b)%nat.
Proof. induction a as [|x a IH]; simpl; rewrite ?IH; reflexivity. Qed.

Lemma append_assoc a b c : (a +:+ b) +:+ c = a +:+ (b +:+ c).
Proof.
  induction a as [|x a IH]; [reflexivity|].
  change (String x ((a +:+ b) +:+ c) = String x (a +:+ (b +:+ c))).
  rewrite IH. reflexivity.
Qed.

Lemma digits_length k n : String.length (Datetime.digits k n) = k.
Proof.
  revert n. induction k as [|k IH]; intros n; cbn [Datetime.digits].
  - reflexivity.
  - rewrite length_append, IH. cbn. lia.
Qed.

Lemma digit_compare n m :
  Ascii.compare (Datetime.digit n) (Datetime.digit m)
  = N.compare (n mod 10) (m mod 10).
Proof.
  unfold Ascii.compare, Datetime.digit.
  rewrite !N_ascii_embedding.
  - destruct (N.compare_spec (n mod 10) (m mod 10));
      [apply N.compare_eq_iff|apply N.compare_lt_iff|apply N.compare_gt_iff];
      lia.
  - pose proof (N.mod_upper_bound m 10). lia.
  - pose proof (N.mod_upper_bound n 10). lia.
Qed.

Lemma compare_base10 q r q' r' :
  r < 10 -> r' < 10 ->
  N.compare (10 * q + r) (10 * q' + r')
  = match N.compare q q' with
    | Eq => N.compare r r'
    | c => c
    end.
Proof.
  intros Hr Hr'.
  destruct (N.compare_spec q q') as [E|E|E].
  - destruct (N.compare_spec r r');
      [apply N.compare_eq_iff|apply N.compare_lt_iff|apply N.compare_gt_iff];
      lia.
  - apply N.compare_lt_iff. lia.
  - apply N.compare_gt_iff. lia.
Qed.

Lemma compare_div_mod n m :
  N.compare n m
  = match N.compare (n / 10) (m / 10) with
    | Eq => N.compare (n mod 10) (m mod 10)
    | c => c
    end.
Proof.
  rewrite <- compare_base10 by (apply N.mod_upper_bound; lia).
  f_equal; apply N.div_mod; lia.
Qed.

Lemma digits_compare k : forall n m,
  n < 10 ^ N.of_nat k -> m < 10 ^ N.of_nat k ->
  String.compare (Datetime.digits k n) (Datetime.digits k m) = N.compare n m.
Proof.
  induction k as [|k IH]; intros n m Hn Hm.
  - cbn in *. symmetry. apply N.compare_eq_iff. lia.
  - cbn [Datetime.digits].
    rewrite compare_app by (rewrite !digits_length; reflexivity).
    rewrite Nat2N.inj_succ, N.pow_succ_r' in Hn, Hm.
    rewrite IH.
    + simpl. rewrite digit_compare.
      rewrite (compare_div_mod n m).
      destruct (n / 10 ?= m / 10); [|reflexivity..].
      destruct (n mod 10 ?= m mod 10); reflexivity.
    + apply N.Div0.div_lt_upper_bound. lia.
    + apply N.Div0.div_lt_upper_bound. lia.
Qed.

Lemma compare_cons c s t :
  String.compare (String c s) (String c t) = String.compare s t.
Proof.
  cbn [String.compare]. unfold Ascii.compare. rewrite N.compare_refl.
  reflexivity.
Qed.

Lemma compare_sep c x y :
  String.compare (String c EmptyString +:+ x) (String c EmptyString +:+ y)
  = String.compare x y.
Proof. apply compare_cons. Qed.

Lemma compare_digits_app k n m s t :
  n < 10 ^ N.of_nat k -> m < 10 ^ N.of_nat k ->
  String.compare (Datetime.digits k n +:+ s) (Datetime.digits k m +:+ t)
  = match N.compare n m with
    | Eq => String.compare s t
    | c => c
    end.
Proof.
  intros Hn Hm. rewrite compare_app by (rewrite !digits_length; reflexivity).
  rewrite digits_compare by assumption. reflexivity.
Qed.

(** Two renderings that start with the seconds of [a] and of [b] compare
    as [a] and [b] do up to the second, and as their tails when those are
    equal. *)
Lemma compare_to_seconds a b s t :
  Datetime.wf a -> Datetime.wf b ->
  String.compare (Datetime.to_seconds a +:+ s) (Datetime.to_seconds b +:+ t)
  = match Datetime.lex_compare
            [Datetime.year a; Datetime.month a; Datetime.day a;
             Datetime.hour a; Datetime.minute a; Datetime.second a]
            [Datetime.year b; Datetime.month b; Datetime.day b;
             Datetime.hour b; Datetime.minute b; Datetime.second b] with
    | Eq => String.compare s t
    | c => c
    end.
Proof.
  intros (Ha1 & Ha2 & Ha3 & Ha4 & Ha5 & Ha6 & _)
         (Hb1 & Hb2 & Hb3 & Hb4 & Hb5 & Hb6 & _).
  unfold Datetime.to_seconds. rewrite !append_assoc.
  cbn [Datetime.lex_compare].
  repeat (rewrite compare_digits_app by assumption;
          match goal with
          | |- context [N.compare ?x ?y] =>
              destruct (N.compare x y); [|reflexivity..]
          end;
          rewrite ?compare_sep).
  reflexivity.
Qed.

(** What the collector's comparison of [updated_at] with [recency_str]
    decides: a GitHub timestamp is at or after the rendered cutoff exactly
    when its instant is at or after the cutoff with the fraction of the
    second dropped. *)
Lemma str_ge_recency cutoff u :
  Datetime.wf cutoff -> Datetime.wf u -> Datetime.microsecond u = 0 ->
  Py.str_ge (Datetime.github_format u) (Datetime.isoformat cutoff +:+ "Z")
  = Datetime.leb (Datetime.truncate cutoff) u.
Proof.
  intros Hc Hu Hmicro.
  unfold Py.str_ge, String.leb, Datetime.github_format, Datetime.isoformat.
  rewrite !append_assoc, compare_to_seconds by assumption.
  unfold Datetime.leb, Datetime.compare, Datetime.fields, Datetime.truncate.
  cbn [Datetime.year Datetime.month Datetime.day Datetime.hour
       Datetime.minute Datetime.second Datetime.microsecond
       Datetime.lex_compare].
  rewrite Hmicro.
  repeat match goal with
         | |- context [N.compare (?f cutoff) (?f u)] =>
             destruct (N.compare (f cutoff) (f u)); [|reflexivity..]
         end.
  destruct (Datetime.microsecond cutoff =? 0); reflexivity.
Qed.

End DatetimeFacts.

(** ** The change collector: [fetch_recent_prs] *)

Section FetchFacts.

Variable w : Embedder.world.
Variables owner repo : string.
Variable hours_ago : Z.

Local Open Scope nat_scope.

Local Abbreviation rs := (Embedder.recency_str w hours_ago).
Local Abbreviation response p :=
  (Embedder.http_get w (Embedder.page_request owner repo p)).
Local Abbreviation status p := (Http.status_code (response p)).
Local Abbreviation recent p :=
  (List.filter (Embedder.is_recent rs) (Http.json (response p))).
Local Abbreviation request := (Embedder.page_request owner repo).
Local Abbreviation merged :=
  (fun pr : Pull.t => Py.truthy (Pull.merged_at pr)).
Local Abbreviation commit pr :=
  (Embedder.commit_request owner repo (Pull.merge_commit_sha pr)).
Local Abbreviation details pr :=
  (Embedder.pr_details w pr (Embedder.http_get w (commit pr))).

(** The loop reaches page [p] when every page before it answered 200 with
    a recent record. *)
Lemma paginate_reaches fuel p :
  1 <= p ->
  (forall q, 1 <= q < p -> status q = 200%Z /\ recent q <> []) ->
  Embedder.paginate w owner repo rs (p - 1 + fuel) 1 [] []
  = Embedder.paginate w owner repo rs fuel p
      (concat (map (fun q => recent q) (seq 1 (p - 1))))
      (map request (seq 1 (p - 1))).
Proof.
  intros Hp Hgo. rewrite paginate_run.
  - replace (1 + (p - 1)) with p by lia. reflexivity.
  - intros q Hq. apply Hgo. lia.
Qed.

Lemma seq_snoc p : 1 <= p -> seq 1 (p - 1) ++ [p] = seq 1 p.
Proof.
  intros Hp. replace p with (S (p - 1)) at 2 3 by lia.
  rewrite seq_S. reflexivity.
Qed.

(** C5: when the list request for some page [p] that the loop reaches is
    answered with a status other than 200 (so with any non-success
    status), [fetch_recent_prs] returns the empty list: nothing of the
    pages fetched before is kept, no exception escapes, and the only
    requests made are the list requests for pages 1 to [p]. *)
Theorem fetch_recent_prs_aborts fuel p :
  1 <= p <= fuel ->
  (forall q, 1 <= q < p -> status q = 200%Z /\ recent q <> []) ->
  status p <> 200%Z ->
  Embedder.fetch_recent_prs w owner repo fuel hours_ago
  = (Some [], map request (seq 1 p)).
Proof.
  intros Hp Hgo Hstatus. unfold Embedder.fetch_recent_prs.
  replace fuel with (p - 1 + S (fuel - p)) by lia.
  rewrite paginate_reaches by (lia || assumption).
  rewrite paginate_abort by assumption.
  rewrite <- (seq_snoc p) by lia. rewrite map_app. reflexivity.
Qed.

(** C8, as the code has it: every change in the returned sequence comes
    from a recent pull request with a merge timestamp, so a change without
    one is dropped from the result; but recency alone keeps the pagination
    going: after a fetched page that holds a recent record, merged or not,
    the next page is requested. *)
Theorem fetch_recent_prs_merged_only fuel result log :
  Embedder.fetch_recent_prs w owner repo fuel hours_ago = (Some result, log) ->
  (forall d, In d result ->
     exists p pr,
       In pr (Http.json (response p))
       /\ Embedder.is_recent rs pr = true
       /\ Py.truthy (Pull.merged_at pr) = true
       /\ d = details pr)
  /\ (forall p pr,
        In (request p) log -> status p = 200%Z ->
        In pr (Http.json (response p)) ->
        Embedder.is_recent rs pr = true ->
        In (request (S p)) log).
Proof.
  unfold Embedder.fetch_recent_prs.
  destruct (Embedder.paginate w owner repo rs fuel 1 [] [])
    as [[[|all_recent]|] log0] eqn:Hloop; [| |discriminate].
  - (* aborted *)
    intros [= <- <-].
    apply paginate_inv in Hloop as (k & Hlog & Hgo & Hexit).
    split; [intros d []|].
    intros p pr Hin Hs Hpr Hrecent. rewrite Hlog in *. cbn [app] in *.
    apply List.in_map_iff in Hin as (q & Hq & Hin).
    apply page_request_inj in Hq. subst q. apply List.in_seq in Hin.
    destruct Hexit as [[_ Hbad]|[Hbroke _]]; [|discriminate].
    destruct (Nat.eq_dec p (1 + k)) as [->|Hne]; [contradiction|].
    apply List.in_map, List.in_seq. lia.
  - (* broke *)
    rewrite collect_merged_spec. cbn [app]. intros [= <- <-].
    apply paginate_inv in Hloop as (k & Hlog & Hgo & Hexit).
    destruct Hexit as [[Hab _]|(Hbroke & Hs & Hnone)]; [discriminate|].
    injection Hbroke as ->. cbn [app] in *. split.
    + intros d Hd. apply List.in_map_iff in Hd as (pr & <- & Hpr).
      apply List.filter_In in Hpr as [Hpr Hmerged].
      apply List.in_concat in Hpr as (l & Hl & Hpr).
      apply List.in_map_iff in Hl as (q & <- & _).
      apply List.filter_In in Hpr as [Hpr Hrecent].
      exists q, pr. auto.
    + intros p pr Hin Hsp Hpr Hrecent.
      apply List.in_or_app. left.
      apply List.in_app_or in Hin as [Hin|Hin].
      * rewrite Hlog in *.
        apply List.in_map_iff in Hin as (q & Hq & Hin).
        apply page_request_inj in Hq. subst q. apply List.in_seq in Hin.
        destruct (Nat.eq_dec p (1 + k)) as [->|Hne].
        -- exfalso.
           assert (Hfil : In pr (recent (1 + k)))
             by (apply List.filter_In; auto).
           rewrite Hnone in Hfil. exact Hfil.
        -- apply List.in_map, List.in_seq. lia.
      * apply List.in_map_iff in Hin as (x & Hx & _). discriminate.
Qed.

(** C9, as the code has it.  The list requests go out for pages 1, 2, ...
    in this order, each with [per_page] 100.  Let page [p] be reached and
    answered with status 200.  If it holds no record whose [updated_at] is,
    as text, at or after the rendered cutoff, the loop stops there, having
    accumulated the recent records of pages 1 to [p - 1] in page order, and
    the function returns the details of the merged ones among them; if it
    holds such a record, page [p + 1] is requested.  On a GitHub timestamp
    the textual test holds exactly when the instant is at or after the
    cutoff with its fraction of a second dropped. *)
Theorem paginate_stops_at_first_stale_page fuel p :
  1 <= p <= fuel ->
  (forall q, 1 <= q < p -> status q = 200%Z /\ recent q <> []) ->
  status p = 200%Z ->
  (exists n,
      (Embedder.paginate w owner repo rs fuel 1 [] []).2
      = map request (seq 1 n))
  /\ (forall q,
        Http.params (request q)
        = [("state", Py.PyStr "all"); ("per_page", Py.PyInt 100);
           ("page", Py.PyInt (Z.of_nat q))])
  /\ (recent p = [] ->
      Embedder.paginate w owner repo rs fuel 1 [] []
      = (Some (Embedder.Broke
                 (concat (map (fun q => recent q) (seq 1 (p - 1))))),
         map request (seq 1 p))
      /\ (Embedder.fetch_recent_prs w owner repo fuel hours_ago).1
         = Some (map (fun pr => details pr)
                     (List.filter merged
                        (concat (map (fun q => recent q)
                                     (seq 1 (p - 1)))))))
  /\ (recent p <> [] -> p < fuel ->
      In (request (S p))
         (Embedder.paginate w owner repo rs fuel 1 [] []).2)
  /\ (forall pr u,
        Datetime.wf (Embedder.recency_of w hours_ago) ->
        Datetime.wf u -> Datetime.microsecond u = 0%N ->
        Pull.updated_at pr = Datetime.github_format u ->
        Embedder.is_recent rs pr
        = Datetime.leb (Datetime.truncate (Embedder.recency_of w hours_ago))
                       u).
Proof.
  intros Hp Hgo Hstatus.
  assert (Hstop : recent p = [] ->
            Embedder.paginate w owner repo rs fuel 1 [] []
            = (Some (Embedder.Broke
                       (concat (map (fun q => recent q) (seq 1 (p - 1))))),
               map request (seq 1 p))).
  { intros Hnone. replace fuel with (p - 1 + S (fuel - p)) by lia.
    rewrite paginate_reaches by (lia || assumption).
    rewrite paginate_break by assumption.
    rewrite <- (seq_snoc p) by lia. rewrite map_app. reflexivity. }
  split; [|split; [|split; [|split]]].
  - destruct (paginate_log w owner repo rs fuel 1 [] [])
      as (n & _ & _ & Hlog).
    exists n. exact Hlog.
  - reflexivity.
  - intros Hnone. split; [exact (Hstop Hnone)|].
    unfold Embedder.fetch_recent_prs. rewrite (Hstop Hnone).
    rewrite collect_merged_spec. reflexivity.
  - intros Hsome Hlt. replace fuel with (p - 1 + S (fuel - p)) by lia.
    rewrite paginate_reaches by (lia || assumption).
    rewrite paginate_continue by assumption.
    destruct (paginate_log w owner repo rs (fuel - p) (S p)
                (concat (map (fun q => recent q) (seq 1 (p - 1)))
                 ++ recent p)
                (map request (seq 1 (p - 1)) ++ [request p]))
      as (n & _ & Hn & Hlog).
    rewrite Hlog. apply List.in_or_app. right.
    apply List.in_map, List.in_seq. lia.
  - intros pr u Hwc Hwu Hmicro Hfmt. unfold Embedder.is_recent.
    rewrite Hfmt. apply str_ge_recency; assumption.
Qed.

End FetchFacts.

(** *** The collector on the sample hosts *)

Lemma fetch_recent_prs_aborts_witness :
  Embedder.fetch_recent_prs
    (Sample.collector_world Sample.refused_on_page_2)
    "ethanbailie" "agentic_code_observer" 5 36
  = (Some [],
     map (Embedder.page_request "ethanbailie" "agentic_code_observer")
         (seq 1 2)).
Proof.
  apply (fetch_recent_prs_aborts
           (Sample.collector_world Sample.refused_on_page_2)
           "ethanbailie" "agentic_code_observer" 36 5%nat 2%nat).
  - lia.
  - intros q Hq. assert (q = 1%nat) as -> by lia.
    split; [reflexivity|]. vm_compute. discriminate.
  - vm_compute. discriminate.
Defined.

(** C8 fails as stated: the only record of page 1 has no merge timestamp,
    and the collector still goes on to pages 2 and 3 because that record
    was updated recently. *)
Lemma unmerged_change_keeps_pagination_going :
  let w := Sample.collector_world Sample.open_then_merged in
  let request := Embedder.page_request "ethanbailie" "agentic_code_observer" in
  Http.json (Embedder.http_get w (request 1%nat)) = [Sample.open_pull]
  /\ Pull.merged_at Sample.open_pull = None
  /\ Embedder.is_recent (Embedder.recency_str w 36) Sample.open_pull = true
  /\ Embedder.fetch_recent_prs w "ethanbailie" "agentic_code_observer" 5 36
     = (Some [Embedder.pr_details w Sample.merged_pull
                (Embedder.http_get w
                   (Embedder.commit_request "ethanbailie"
                      "agentic_code_observer" "9fceb02"))],
        [request 1%nat; request 2%nat; request 3%nat;
         Embedder.commit_request "ethanbailie" "agentic_code_observer"
                                 "9fceb02"]).
Proof. vm_compute. repeat split. Qed.

Lemma fetch_recent_prs_merged_only_witness :
  let w := Sample.collector_world Sample.open_then_merged in
  let request := Embedder.page_request "ethanbailie" "agentic_code_observer" in
  (forall d,
      In d [Embedder.pr_details w Sample.merged_pull
              (Embedder.http_get w
                 (Embedder.commit_request "ethanbailie"
                    "agentic_code_observer" "9fceb02"))] ->
      exists p pr,
        In pr (Http.json (Embedder.http_get w (request p)))
        /\ Embedder.is_recent (Embedder.recency_str w 36) pr = true
        /\ Py.truthy (Pull.merged_at pr) = true
        /\ d = Embedder.pr_details w pr
                 (Embedder.http_get w
                    (Embedder.commit_request "ethanbailie"
                       "agentic_code_observer" (Pull.merge_commit_sha pr))))
  /\ (forall p pr,
        In (request p)
           [request 1%nat; request 2%nat; request 3%nat;
            Embedder.commit_request "ethanbailie" "agentic_code_observer"
                                    "9fceb02"] ->
        Http.status_code (Embedder.http_get w (request p)) = 200 ->
        In pr (Http.json (Embedder.http_get w (request p))) ->
        Embedder.is_recent (Embedder.recency_str w 36) pr = true ->
        In (request (S p))
           [request 1%nat; request 2%nat; request 3%nat;
            Embedder.commit_request "ethanbailie" "agentic_code_observer"
                                    "9fceb02"]).
Proof.
  intros w request.
  apply (fetch_recent_prs_merged_only w "ethanbailie"
           "agentic_code_observer" 36 5%nat).
  vm_compute. reflexivity.
Defined.

(** C9 fails as stated: the only record of page 1 was updated at noon,
    half a second before the cutoff, so no record of the page falls within
    the window; the loop nevertheless goes on to page 2, and the record is
    returned. *)
Lemma paginate_goes_on_within_cutoff_second :
  let w := Sample.collector_world Sample.stale_only in
  let request := Embedder.page_request "ethanbailie" "agentic_code_observer" in
  Embedder.recency_of w 36 = Sample.cutoff
  /\ Http.status_code (Embedder.http_get w (request 1%nat)) = 200
  /\ Http.json (Embedder.http_get w (request 1%nat)) = [Sample.stale_pull]
  /\ Pull.updated_at Sample.stale_pull = Datetime.github_format Sample.noon
  /\ Datetime.leb Sample.cutoff Sample.noon = false
  /\ Embedder.paginate w "ethanbailie" "agentic_code_observer"
                       (Embedder.recency_str w 36) 5 1 [] []
     = (Some (Embedder.Broke [Sample.stale_pull]),
        [request 1%nat; request 2%nat])
  /\ (Embedder.fetch_recent_prs w "ethanbailie" "agentic_code_observer"
                                5 36).1
     = Some [Embedder.pr_details w Sample.stale_pull
               (Embedder.http_get w
                  (Embedder.commit_request "ethanbailie"
                     "agentic_code_observer" "1b2c3d4"))].
Proof. vm_compute. repeat split. Qed.

Lemma paginate_stops_at_first_stale_page_witness :
  let w := Sample.collector_world Sample.stale_only in
  let request := Embedder.page_request "ethanbailie" "agentic_code_observer" in
  Embedder.paginate w "ethanbailie" "agentic_code_observer"
                    (Embedder.recency_str w 36) 5 1 [] []
  = (Some (Embedder.Broke [Sample.stale_pull]), map request (seq 1 2))
  /\ Embedder.is_recent (Embedder.recency_str w 36) Sample.stale_pull
     = Datetime.leb (Datetime.truncate Sample.cutoff) Sample.noon.
Proof.
  intros w request.
  assert (Hp : (1 <= 2 <= 5)%nat) by lia.
  assert (Hgo : forall q, (1 <= q < 2)%nat ->
            Http.status_code (Embedder.http_get w (request q)) = 200
            /\ List.filter (Embedder.is_recent (Embedder.recency_str w 36))
                 (Http.json (Embedder.http_get w (request q))) <> []).
  { intros q Hq. assert (q = 1%nat) as -> by lia.
    split; [reflexivity|]. vm_compute. discriminate. }
  assert (Hstatus : Http.status_code (Embedder.http_get w (request 2%nat))
                    = 200) by reflexivity.
  destruct (paginate_stops_at_first_stale_page w "ethanbailie"
              "agentic_code_observer" 36 5%nat 2%nat Hp Hgo Hstatus)
    as (_ & _ & Hstop & _ & Hmeaning).
  split.
  - exact (proj1 (Hstop eq_refl)).
  - apply Hmeaning; try reflexivity; vm_compute; repeat split.
Defined.

(** * Further properties of the sources *)

(** ** The change collector *)

Section FetchMore.

Variable w : Embedder.world.
Variables owner repo : string.
Variable hours_ago : Z.

Local Open Scope nat_scope.

Local Abbreviation rs := (Embedder.recency_str w hours_ago).
Local Abbreviation response p :=
  (Embedder.http_get w (Embedder.page_request owner repo p)).
Local Abbreviation status p := (Http.status_code (response p)).
Local Abbreviation recent p :=
  (List.filter (Embedder.is_recent rs) (Http.json (response p))).
Local Abbreviation request := (Embedder.page_request owner repo).
Local Abbreviation commit pr :=
  (Embedder.commit_request owner repo (Pull.merge_commit_sha pr)).
Local Abbreviation details pr :=
  (Embedder.pr_details w pr (Embedder.http_get w (commit pr))).

(** X1: the pagination loop has no bound of its own.  On a host whose
    every page answers 200 with a recently updated record, the loop is
    still running after any number of iterations: no result has been
    returned and one list request per iteration has gone out. *)
Theorem fetch_recent_prs_never_exits fuel :
  (forall q, 1 <= q -> status q = 200%Z /\ recent q <> []) ->
  Embedder.fetch_recent_prs w owner repo fuel hours_ago
  = (None, map request (seq 1 fuel)).
Proof.
  intros Hgo. unfold Embedder.fetch_recent_prs.
  replace fuel with (fuel + 0) at 1 by lia.
  rewrite paginate_run by (intros q Hq; apply Hgo; lia).
  reflexivity.
Qed.

(** X2: the shape of a fetch that returns.  All list requests come first,
    for pages 1 to some [n]; they are followed by exactly one commit
    request per returned change, in the order of the result, and every
    returned change is built from a recently updated pull request with a
    merge timestamp and from the answer to its commit request. *)
Theorem fetch_recent_prs_requests fuel result log :
  Embedder.fetch_recent_prs w owner repo fuel hours_ago = (Some result, log) ->
  exists n prs,
    1 <= n <= fuel
    /\ log = map request (seq 1 n) ++ map (fun pr => commit pr) prs
    /\ result = map (fun pr => details pr) prs
    /\ Forall (fun pr => Py.truthy (Pull.merged_at pr) = true
                         /\ Embedder.is_recent rs pr = true) prs.
Proof.
  unfold Embedder.fetch_recent_prs.
  destruct (paginate_log w owner repo rs fuel 1 [] [])
    as (n' & Hn' & _ & Hlog').
  destruct (Embedder.paginate w owner repo rs fuel 1 [] [])
    as [[[|all_recent]|] log0] eqn:Hloop; [| |discriminate].
  - intros [= <- <-].
    apply paginate_inv in Hloop as (k & Hlog & _ & _).
    cbn [snd app] in *. exists (S k), [].
    assert (n' = S k).
    { rewrite Hlog in Hlog'. apply (f_equal length) in Hlog'.
      rewrite !length_map, !length_seq in Hlog'. lia. }
    split; [lia|]. rewrite Hlog, app_nil_r. repeat split. constructor.
  - rewrite collect_merged_spec. cbn [app]. intros [= <- <-].
    apply paginate_inv in Hloop as (k & Hlog & _ & Hexit).
    destruct Hexit as [[Hab _]|(Hbroke & _ & _)]; [discriminate|].
    injection Hbroke as ->. cbn [snd app] in *.
    assert (n' = S k).
    { rewrite Hlog in Hlog'. apply (f_equal length) in Hlog'.
      rewrite !length_map, !length_seq in Hlog'. lia. }
    eexists (S k), _. split; [lia|]. rewrite Hlog.
    split; [reflexivity|]. split; [reflexivity|].
    apply List.Forall_forall. intros pr Hpr.
    apply List.filter_In in Hpr as [Hpr Hmerged]. split; [exact Hmerged|].
    apply List.in_concat in Hpr as (l & Hl & Hpr).
    apply List.in_map_iff in Hl as (q & <- & _).
    apply List.filter_In in Hpr as [_ Hrecent]. exact Hrecent.
Qed.

End FetchMore.

Lemma fetch_recent_prs_never_exits_witness :
  Embedder.fetch_recent_prs (Sample.collector_world Sample.always_recent)
    "ethanbailie" "agentic_code_observer" 7 36
  = (None,
     map (Embedder.page_request "ethanbailie" "agentic_code_observer")
         (seq 1 7)).
Proof.
  apply (fetch_recent_prs_never_exits
           (Sample.collector_world Sample.always_recent)
           "ethanbailie" "agentic_code_observer" 36 7%nat).
  intros q Hq. split; [reflexivity|]. vm_compute. discriminate.
Defined.

Lemma fetch_recent_prs_requests_witness :
  let w := Sample.collector_world Sample.open_then_merged in
  exists n prs,
    (1 <= n <= 5)%nat
    /\ [Embedder.page_request "ethanbailie" "agentic_code_observer" 1%nat;
        Embedder.page_request "ethanbailie" "agentic_code_observer" 2%nat;
        Embedder.page_request "ethanbailie" "agentic_code_observer" 3%nat;
        Embedder.commit_request "ethanbailie" "agentic_code_observer"
                                "9fceb02"]
       = map (Embedder.page_request "ethanbailie" "agentic_code_observer")
             (seq 1 n)
         ++ map (fun pr =>
                   Embedder.commit_request "ethanbailie"
                     "agentic_code_observer" (Pull.merge_commit_sha pr)) prs
    /\ [Embedder.pr_details w Sample.merged_pull
          (Embedder.http_get w
             (Embedder.commit_request "ethanbailie" "agentic_code_observer"
                                      "9fceb02"))]
       = map (fun pr =>
                Embedder.pr_details w pr
                  (Embedder.http_get w
                     (Embedder.commit_request "ethanbailie"
                        "agentic_code_observer" (Pull.merge_commit_sha pr))))
             prs
    /\ Forall (fun pr => Py.truthy (Pull.merged_at pr) = true
                         /\ Embedder.is_recent
                              (Embedder.recency_str w 36) pr = true) prs.
Proof.
  intros w.
  apply (fetch_recent_prs_requests w "ethanbailie" "agentic_code_observer"
           36 5%nat).
  vm_compute. reflexivity.
Defined.

(** ** Vector identifiers *)

Lemma append_cons c a b : String c a +:+ b = String c (a +:+ b).
Proof. reflexivity. Qed.

Lemma split_no_sep sep s :
  ~ In sep (list_ascii_of_string s) -> Py.split sep s = [s].
Proof.
  induction s as [|c s IH]; intros Hno; [reflexivity|].
  cbn [Py.split]. simpl in Hno.
  destruct (Ascii.eqb_spec c sep) as [->|Hne]; [tauto|].
  rewrite IH by tauto. reflexivity.
Qed.

Lemma in_append_sep sep a b :
  In sep (list_ascii_of_string (a +:+ String sep b)).
Proof.
  induction a as [|c a IH]; [left; reflexivity|].
  rewrite append_cons. right. exact IH.
Qed.

Lemma split_append_sep sep before s :
  ~ In sep (list_ascii_of_string s) ->
  Py.last_item (Py.split sep (before +:+ String sep s)) = s.
Proof.
  intros Hno. unfold Py.last_item.
  induction before as [|c before IH].
  - change (EmptyString +:+ String sep s) with (String sep s).
    cbn [Py.split]. rewrite Ascii.eqb_refl, split_no_sep by exact Hno.
    reflexivity.
  - rewrite append_cons. cbn [Py.split].
    destruct (Py.split sep (before +:+ String sep s)) as [|h t] eqn:Hs;
      [exfalso; exact (split_nonempty _ _ Hs)|].
    destruct (Ascii.eqb c sep); [exact IH|].
    destruct t as [|x t]; [|exact IH].
    exfalso. destruct (split_last _ _ _ _ Hs) as (Hnone & Hone & _).
    rewrite <- (Hone eq_refl) in Hnone. apply Hnone, in_append_sep.
Qed.

(** X3: the identifier [embed_pr_data] gives a vector never contains a
    [/]; it is the whole url when the url has no [/], and otherwise the
    url is some text, a [/], and the identifier.  So a url that ends in a
    [/] gives the empty identifier. *)
Theorem pr_id_is_last_segment (pr : PrDetails.t) :
  ~ In "/"%char (list_ascii_of_string (Embedder.pr_id pr))
  /\ (PrDetails.url pr = Embedder.pr_id pr
      \/ exists before,
           PrDetails.url pr = before +:+ String "/" (Embedder.pr_id pr))
  /\ (forall before,
        PrDetails.url pr = before +:+ "/" -> Embedder.pr_id pr = EmptyString).
Proof.
  unfold Embedder.pr_id, Py.last_item.
  destruct (Py.split "/" (PrDetails.url pr)) as [|h t] eqn:Hs;
    [exfalso; exact (split_nonempty _ _ Hs)|].
  destruct (split_last _ _ _ _ Hs) as (Hno & Hone & Hmore).
  split; [exact Hno|]. split.
  - destruct t as [|x t].
    + left. rewrite (Hone eq_refl). reflexivity.
    + right. apply Hmore. discriminate.
  - intros before Hurl. rewrite <- Hs, Hurl.
    apply (split_append_sep "/" before EmptyString). simpl. tauto.
Qed.

(** X4: for a record whose url is [.../N] with no [/] in [N], the vector
    identifier is [N]. *)
Theorem pr_id_of_url (pr : PrDetails.t) before number :
  PrDetails.url pr = before +:+ String "/" number ->
  ~ In "/"%char (list_ascii_of_string number) ->
  Embedder.pr_id pr = number.
Proof.
  intros Hurl Hno. unfold Embedder.pr_id. rewrite Hurl.
  apply split_append_sep. exact Hno.
Qed.

(** X5: the indexer and the diff fetcher agree on identifiers.  For a
    record whose url is the GitHub page of pull request [N] of a
    repository, the diff requested for its vector identifier from that
    repository is the url followed by [.diff]. *)
Theorem diff_request_of_pr_id (pr : PrDetails.t) owner repo number :
  PrDetails.url pr
  = "https://github.com/" +:+ owner +:+ "/" +:+ repo +:+ "/pull/" +:+ number ->
  ~ In "/"%char (list_ascii_of_string number) ->
  Http.url (Retriever.diff_request owner repo (Embedder.pr_id pr))
  = PrDetails.url pr +:+ ".diff".
Proof.
  intros Hurl Hno.
  assert (Hid : Embedder.pr_id pr = number).
  { apply (pr_id_of_url pr
             ("https://github.com/" +:+ owner +:+ "/" +:+ repo +:+ "/pull"));
      [|exact Hno].
    rewrite Hurl, !append_assoc. reflexivity. }
  rewrite Hid, Hurl. cbn [Retriever.diff_request Http.url].
  rewrite !append_assoc. reflexivity.
Qed.

Lemma pr_id_of_url_witness : Embedder.pr_id Sample.pr_a = "42".
Proof.
  apply (pr_id_of_url Sample.pr_a
           "https://github.com/ethanbailie/agentic_code_observer/pull" "42").
  - reflexivity.
  - vm_compute. intuition discriminate.
Defined.

Lemma diff_request_of_pr_id_witness :
  Http.url (Retriever.diff_request "ethanbailie" "agentic_code_observer"
              (Embedder.pr_id Sample.pr_a))
  = PrDetails.url Sample.pr_a +:+ ".diff".
Proof.
  apply (diff_request_of_pr_id Sample.pr_a
           "ethanbailie" "agentic_code_observer" "42").
  - reflexivity.
  - vm_compute. intuition discriminate.
Defined.

(** ** The upsert and the indexing script *)

(** What a returned list is made of. *)
Lemma fetch_recent_prs_shape (w : Embedder.world) owner repo hours_ago
    fuel prs log :
  Embedder.fetch_recent_prs w owner repo fuel hours_ago = (Some prs, log) ->
  exists pulls,
    prs = map (fun pull =>
                 Embedder.pr_details w pull
                   (Embedder.http_get w
                      (Embedder.commit_request owner repo
                         (Pull.merge_commit_sha pull)))) pulls
    /\ Forall (fun pull =>
                 Py.truthy (Pull.merged_at pull) = true
                 /\ Embedder.is_recent (Embedder.recency_str w hours_ago)
                                       pull = true) pulls.
Proof.
  unfold Embedder.fetch_recent_prs.
  destruct (Embedder.paginate _ _ _ _ _ _ _ _)
    as [[[|all_recent]|] log0] eqn:Hloop; [| |discriminate].
  - intros [= <- <-]. exists []. split; [reflexivity|constructor].
  - rewrite collect_merged_spec. cbn [app]. intros [= <- <-].
    apply paginate_inv in Hloop as (k & _ & _ & Hexit).
    destruct Hexit as [[Hab _]|(Hbroke & _ & _)]; [discriminate|].
    injection Hbroke as ->. cbn [app]. eexists. split; [reflexivity|].
    apply List.Forall_forall. intros pull Hpull.
    apply List.filter_In in Hpull as [Hpull Hmerged].
    split; [exact Hmerged|].
    apply List.in_concat in Hpull as (l & Hl & Hpull).
    apply List.in_map_iff in Hl as (q & <- & _).
    apply List.filter_In in Hpull as [_ Hrecent]. exact Hrecent.
Qed.

Section UpsertMore.

Context {V : Type}.

(** X6: what the vector index service receives for a non-empty vector
    list: the index listing, then the creation of the index (dimension
    1024, cosine, aws, us-east-1) exactly when no index of that name
    exists, then one upsert of the whole list into that index. *)
Theorem upsert_to_pinecone_calls x vectors index_name
    (pc : Embedder.pinecone V) :
  Embedder.calls (Embedder.upsert_to_pinecone (x :: vectors) index_name pc)
  = Embedder.calls pc
    ++ [Embedder.ListIndexes]
    ++ match Embedder.indexes pc !! index_name with
       | None =>
           [Embedder.CreateIndex index_name 1024 "cosine" "aws" "us-east-1"]
       | Some _ => []
       end
    ++ [Embedder.Upsert index_name (x :: vectors)].
Proof.
  unfold Embedder.upsert_to_pinecone.
  cbn [Embedder.received Embedder.indexes].
  destruct (Embedder.indexes pc !! index_name); cbn;
    rewrite <- !app_assoc; reflexivity.
Qed.

Variable w : Embedder.world.
Variable embed_documents : list string -> list V.

(** X7: the indexing script leaves the vector index service alone exactly
    when there is nothing to upsert.  If the fetch returned [prs], the
    service receives no call if and only if [prs] is empty or the
    embedding service answered with no vector. *)
Theorem main_touches_index_iff fuel (pc pc' : Embedder.pinecone V) prs log :
  Embedder.fetch_recent_prs w DataPull.owner DataPull.repo fuel 36
  = (Some prs, log) ->
  DataPull.main w embed_documents fuel pc = (Some pc', log) ->
  (Embedder.calls pc' = Embedder.calls pc
   <-> prs = []
       \/ embed_documents (map Embedder.text_to_embed prs) = []).
Proof.
  intros Hfetch. unfold DataPull.main. rewrite Hfetch. intros [= <-].
  destruct prs as [|pr prs]; [cbn; tauto|].
  cbn [Embedder.embed_pr_data map].
  destruct (embed_documents _) as [|v vs] eqn:Hanswer.
  - cbn. tauto.
  - cbn [Py.zip3]. rewrite upsert_to_pinecone_calls. split.
    + intros H. apply (f_equal length) in H.
      rewrite !length_app in H. cbn in H. lia.
    + intros [H|H]; discriminate.
Qed.

(** X8: a refused list request indexes nothing.  When the list request
    for a page the collector reaches is answered with a status other than
    200, the script ends with the vector index service as it was. *)
Theorem main_aborted_fetch fuel p (pc : Embedder.pinecone V) :
  (1 <= p <= fuel)%nat ->
  (forall q, (1 <= q < p)%nat ->
     Http.status_code
       (Embedder.http_get w
          (Embedder.page_request DataPull.owner DataPull.repo q)) = 200
     /\ List.filter (Embedder.is_recent (Embedder.recency_str w 36))
          (Http.json
             (Embedder.http_get w
                (Embedder.page_request DataPull.owner DataPull.repo q)))
        <> []) ->
  Http.status_code
    (Embedder.http_get w
       (Embedder.page_request DataPull.owner DataPull.repo p)) <> 200 ->
  DataPull.main w embed_documents fuel pc
  = (Some pc,
     map (Embedder.page_request DataPull.owner DataPull.repo) (seq 1 p)).
Proof.
  intros Hp Hgo Hstatus. unfold DataPull.main, Embedder.fetch_recent_prs.
  replace fuel with (p - 1 + S (fuel - p))%nat by lia.
  rewrite paginate_reaches by (lia || assumption).
  rewrite paginate_abort by assumption.
  rewrite <- (seq_snoc p) by lia. rewrite map_app. reflexivity.
Qed.

(** X9: what the script upserts.  Every vector handed to the upsert
    belongs to a recently updated pull request with a merge timestamp: its
    identifier is the last segment of the pull request's [html_url], and
    its metadata are the pull request's title, state and [html_url] and
    the parsed [updated_at]. *)
Theorem main_upserts_merged_pulls fuel prs log ident v md :
  Embedder.fetch_recent_prs w DataPull.owner DataPull.repo fuel 36
  = (Some prs, log) ->
  In (ident, v, md) (Embedder.embed_pr_data embed_documents prs) ->
  exists pull,
    Py.truthy (Pull.merged_at pull) = true
    /\ Embedder.is_recent (Embedder.recency_str w 36) pull = true
    /\ ident = Py.last_item (Py.split "/"%char (Pull.html_url pull))
    /\ md = {| Metadata.title := Pull.title pull;
               Metadata.state := Pull.state pull;
               Metadata.updated_at :=
                 Embedder.strptime_timestamp w (Pull.updated_at pull);
               Metadata.url := Pull.html_url pull |}.
Proof.
  intros Hfetch Hin.
  apply fetch_recent_prs_shape in Hfetch as (pulls & -> & Hall).
  apply list_elem_of_In, list_elem_of_lookup_1 in Hin as [i Hi].
  rewrite embed_pr_data_unfold in Hi. apply zip3_lookup_inv in Hi.
  cbn [fst snd] in Hi. destruct Hi as (Hid & _ & Hmd).
  rewrite !list_lookup_fmap in Hid. rewrite !list_lookup_fmap in Hmd.
  destruct (pulls !! i) as [pull|] eqn:Hpull; [|discriminate].
  cbn in Hid, Hmd. injection Hid as <-. injection Hmd as <-.
  rewrite List.Forall_forall in Hall.
  destruct (Hall pull) as [Hmerged Hrecent].
  { apply list_elem_of_In. eapply list_elem_of_lookup_2. exact Hpull. }
  exists pull. repeat split; assumption.
Qed.

End UpsertMore.

Lemma main_touches_index_iff_witness :
  let w := Sample.collector_world Sample.open_then_merged in
  exists pc' prs log,
    DataPull.main w Sample.per_text 5 Sample.no_index = (Some pc', log)
    /\ (Embedder.calls pc' = Embedder.calls Sample.no_index
        <-> prs = []
            \/ Sample.per_text (map Embedder.text_to_embed prs) = []).
Proof.
  intros w. eexists _, _, _. split; [vm_compute; reflexivity|].
  eapply (main_touches_index_iff w Sample.per_text 5%nat Sample.no_index);
    vm_compute; reflexivity.
Defined.

Lemma main_aborted_fetch_witness :
  DataPull.main (Sample.collector_world Sample.refused_on_page_2)
                Sample.per_text 5 Sample.no_index
  = (Some Sample.no_index,
     map (Embedder.page_request DataPull.owner DataPull.repo) (seq 1 2)).
Proof.
  apply (main_aborted_fetch
           (Sample.collector_world Sample.refused_on_page_2)
           Sample.per_text 5%nat 2%nat Sample.no_index).
  - lia.
  - intros q Hq. assert (q = 1%nat) as -> by lia.
    split; [reflexivity|]. vm_compute. discriminate.
  - vm_compute. discriminate.
Defined.

Lemma main_upserts_merged_pulls_witness :
  let w := Sample.collector_world Sample.open_then_merged in
  exists pull,
    Py.truthy (Pull.merged_at pull) = true
    /\ Embedder.is_recent (Embedder.recency_str w 36) pull = true
    /\ "43" = Py.last_item (Py.split "/"%char (Pull.html_url pull))
    /\ Embedder.metadata
         (Embedder.pr_details w Sample.merged_pull
            (Embedder.http_get w
               (Embedder.commit_request DataPull.owner DataPull.repo
                                        "9fceb02")))
       = {| Metadata.title := Pull.title pull;
            Metadata.state := Pull.state pull;
            Metadata.updated_at :=
              Embedder.strptime_timestamp w (Pull.updated_at pull);
            Metadata.url := Pull.html_url pull |}.
Proof.
  intros w.
  eapply (main_upserts_merged_pulls w Sample.per_text 5%nat).
  - vm_compute. reflexivity.
  - left. reflexivity.
Defined.

(** ** The diff fetcher and the relevance tool *)

Section DiffsMore.

Context {V : Type}.
Variable w : Retriever.world V.

Lemma fetch_diffs_get owner repo pr_ids : forall diffs log k,
  Py.dict_get (Retriever.fetch_diffs w owner repo pr_ids diffs log).1 k
  = if bool_decide (k ∈ pr_ids)
    then Some (Py.PyStr
                 (Http.text
                    (Retriever.http_get w
                       (Retriever.diff_request owner repo k))))
    else Py.dict_get diffs k.
Proof.
  induction pr_ids as [|pr_id rest IH]; intros diffs log k.
  - reflexivity.
  - cbn [Retriever.fetch_diffs]. rewrite IH, dict_get_set.
    destruct (String.eqb_spec pr_id k) as [->|Hne].
    + rewrite (bool_decide_eq_true_2 (k ∈ k :: rest)) by left.
      destruct (bool_decide (k ∈ rest)); reflexivity.
    + destruct (bool_decide (k ∈ rest)) eqn:Hin.
      * apply bool_decide_eq_true_1 in Hin.
        rewrite bool_decide_eq_true_2 by (right; exact Hin). reflexivity.
      * apply bool_decide_eq_false_1 in Hin.
        rewrite bool_decide_eq_false_2; [reflexivity|].
        intros H. apply elem_of_cons in H as [H|H];
          [congruence|contradiction].
Qed.

(** X10: what [get_diffs] fetches and returns.  One request goes out per
    entry of the id list, in list order.  Subscripting the returned object
    with an id of the list gives the body text of the response to that
    id's diff url, whatever the status of the response; subscripting it
    with any other id fails. *)
Theorem get_diffs_lookup (owner repo : string) (pr_ids : list string) :
  (Retriever.get_diffs w owner repo pr_ids).2
  = map (Retriever.diff_request owner repo) pr_ids
  /\ (forall pr_id,
        In pr_id pr_ids ->
        Py.subscript (Retriever.get_diffs w owner repo pr_ids).1 pr_id
        = Some (Py.PyStr
                  (Http.text
                     (Retriever.http_get w
                        (Retriever.diff_request owner repo pr_id)))))
  /\ (forall pr_id,
        ~ In pr_id pr_ids ->
        Py.subscript (Retriever.get_diffs w owner repo pr_ids).1 pr_id
        = None).
Proof.
  destruct pr_ids as [|x rest].
  - split; [reflexivity|]. split; [intros pr_id []|reflexivity].
  - unfold Retriever.get_diffs.
    pose proof (fetch_diffs_log w owner repo (x :: rest) [] []) as Hlog.
    pose proof (fetch_diffs_get owner repo (x :: rest) [] []) as Hget.
    destruct (Retriever.fetch_diffs w owner repo (x :: rest) [] [])
      as [diffs log].
    cbn [fst snd Py.subscript] in *. split; [exact Hlog|]. split.
    + intros pr_id Hin. apply list_elem_of_In in Hin.
      rewrite Hget, bool_decide_eq_true_2 by exact Hin. reflexivity.
    + intros pr_id Hin. rewrite Hget, bool_decide_eq_false_2; [reflexivity|].
      intros H. apply Hin, list_elem_of_In, H.
Qed.

End DiffsMore.

Section ToolMore.

Context {V : Type}.
Variable w : AgentTools.world V.

Local Abbreviation matches issue :=
  (Retriever.semantic_search (AgentTools.retriever w) issue "rootly" 5).

Lemma find_relevant_diffs_log (issue_description : string) :
  (AgentTools.find_relevant_diffs w issue_description).2
  = map (fun m =>
           Retriever.diff_request "ethanbailie" "agentic_code_observer"
                                  (Match.id m))
        (matches issue_description).
Proof.
  unfold AgentTools.find_relevant_diffs.
  set (prs := map _ (matches issue_description)).
  assert (Hlog : (Retriever.get_diffs (AgentTools.retriever w) "ethanbailie"
                    "agentic_code_observer" (map fst prs)).2
                 = map (Retriever.diff_request "ethanbailie"
                          "agentic_code_observer") (map fst prs)).
  { destruct (map fst prs) as [|x rest]; [reflexivity|].
    destruct (get_diffs_nonempty (AgentTools.retriever w) "ethanbailie"
                "agentic_code_observer" x rest) as [d ->]. reflexivity. }
  destruct (Retriever.get_diffs _ _ _ _) as [diffs log].
  cbn [snd] in Hlog.
  assert (Hfinal : log = map (fun m =>
             Retriever.diff_request "ethanbailie" "agentic_code_observer"
                                    (Match.id m))
            (matches issue_description)).
  { rewrite Hlog. subst prs. rewrite !List.map_map. reflexivity. }
  destruct (AgentTools.with_metadata diffs prs []); exact Hfinal.
Qed.

(** X11: the urls the relevance tool requests are, in rank order of the
    search matches, the diff urls of the matches' identifiers in the
    repository [ethanbailie/agentic_code_observer], and nothing else is
    requested. *)
Theorem find_relevant_diffs_urls (issue_description : string) :
  map Http.url (AgentTools.find_relevant_diffs w issue_description).2
  = map (fun m =>
           "https://github.com/ethanbailie/agentic_code_observer/pull/"
           +:+ Match.id m +:+ ".diff")
        (matches issue_description)
  /\ Forall (fun req => Http.params req = [])
            (AgentTools.find_relevant_diffs w issue_description).2.
Proof.
  rewrite find_relevant_diffs_log. split.
  - rewrite List.map_map. apply List.map_ext. intros m. reflexivity.
  - apply List.Forall_forall. intros req Hin.
    apply List.in_map_iff in Hin as (m & <- & _). reflexivity.
Qed.

(** X12: when the search has no match the tool issues no request and
    still consults the chat model, on the rendering of an empty candidate
    dict. *)
Theorem find_relevant_diffs_no_match (issue_description : string) :
  matches issue_description = [] ->
  AgentTools.find_relevant_diffs w issue_description
  = (Some (Py.PyDict
             [("messages",
               Py.PyList
                 [Py.PyStr
                    (AgentTools.chat_invoke w
                       [Msg.SystemMessage AgentTools.system_prompt;
                        Msg.HumanMessage
                          (AgentTools.human_prompt
                             (AgentTools.repr w (Py.PyDict []))
                             issue_description)])])]),
     []).
Proof.
  intros Hnone. unfold AgentTools.find_relevant_diffs. rewrite Hnone.
  reflexivity.
Qed.

(** X13: on a vector index that honours the filter it is sent, every diff
    the tool requests belongs to a search match whose stored [updated_at]
    is at most twelve hours before the query time. *)
Theorem find_relevant_diffs_recent_only (issue_description : string) req :
  (forall name vector top_k include_metadata f,
      Forall (fun m => Retriever.passes f (Match.metadata m) = true)
             (Retriever.index_query (AgentTools.retriever w) name vector
                                    top_k include_metadata f)) ->
  In req (AgentTools.find_relevant_diffs w issue_description).2 ->
  exists m,
    In m (matches issue_description)
    /\ req = Retriever.diff_request "ethanbailie" "agentic_code_observer"
                                    (Match.id m)
    /\ Retriever.now (AgentTools.retriever w) - 12 * 3600 * 1000000
       <= Metadata.updated_at (Match.metadata m).
Proof.
  intros Hhonours Hin. rewrite find_relevant_diffs_log in Hin.
  apply List.in_map_iff in Hin as (m & <- & Hm).
  exists m. split; [exact Hm|]. split; [reflexivity|].
  unfold Retriever.semantic_search in Hm.
  specialize (Hhonours "rootly"
                (Retriever.embed_query (AgentTools.retriever w)
                                       issue_description)
                5 true
                (Retriever.Gte "updated_at"
                   (Retriever.now (AgentTools.retriever w)
                    - Retriever.twelve_hours))).
  rewrite List.Forall_forall in Hhonours.
  apply Hhonours, passes_gte_updated_at in Hm. exact Hm.
Qed.

End ToolMore.

Lemma find_relevant_diffs_no_match_witness :
  AgentTools.find_relevant_diffs Sample.stale_tools_world
                                 "Broken pinecone upsert"
  = (Some (Py.PyDict [("messages", Py.PyList [Py.PyStr Sample.verdict])]),
     []).
Proof.
  apply (find_relevant_diffs_no_match Sample.stale_tools_world
           "Broken pinecone upsert").
  reflexivity.
Defined.

Lemma find_relevant_diffs_recent_only_witness :
  exists m,
    In m (Retriever.semantic_search
            (AgentTools.retriever Sample.tools_world)
            "Broken pinecone upsert" "rootly" 5)
    /\ Retriever.diff_request "ethanbailie" "agentic_code_observer" "43"
       = Retriever.diff_request "ethanbailie" "agentic_code_observer"
                                (Match.id m)
    /\ Retriever.now (AgentTools.retriever Sample.tools_world)
       - 12 * 3600 * 1000000
       <= Metadata.updated_at (Match.metadata m).
Proof.
  apply (find_relevant_diffs_recent_only Sample.tools_world
           "Broken pinecone upsert"
           (Retriever.diff_request "ethanbailie" "agentic_code_observer"
                                   "43")).
  - intros name vector top_k include_metadata f.
    apply filtering_index_honours.
  - left. reflexivity.
Defined.

(** ** The agent's graph *)

Section AgentMore.

Import Msg.
Variable self : Agent.t.

Lemma run_tool_calls_invoked_spec tool_calls results invoked :
  (Agent.run_tool_calls self tool_calls results invoked).2
  = invoked
    ++ map (fun c => (name c, args c))
           (List.filter
              (fun c => bool_decide (is_Some (Agent.tools self !! name c)))
              tool_calls).
Proof.
  revert results invoked.
  induction tool_calls as [|c rest IH]; intros results invoked.
  - cbn. rewrite app_nil_r. reflexivity.
  - cbn [Agent.run_tool_calls List.filter].
    destruct (Agent.tools self !! name c) as [tl|] eqn:E.
    + rewrite bool_decide_eq_true_2 by eauto.
      rewrite IH, <- app_assoc. reflexivity.
    + rewrite bool_decide_eq_false_2 by (intros [? ?]; discriminate).
      apply IH.
Qed.

(** X14: an acting step answers every tool call of the last assistant
    message exactly once and in order, each answer carrying the call's id
    and name; the tools it invokes are the calls whose name is in the tool
    set, in order, each with the call's arguments. *)
Theorem take_action_answers_every_call messages content tool_calls :
  last messages = Some (AIMessage content tool_calls) ->
  exists results invoked,
    Agent.take_action self messages = Some (results, invoked)
    /\ length results = length tool_calls
    /\ (forall i c,
          tool_calls !! i = Some c ->
          exists answer,
            results !! i = Some (ToolMessage (id c) (name c) answer))
    /\ invoked
       = map (fun c => (name c, args c))
             (List.filter
                (fun c => bool_decide (is_Some (Agent.tools self !! name c)))
                tool_calls).
Proof.
  intros Hlast. unfold Agent.take_action, Agent.last_tool_calls.
  rewrite Hlast.
  pose proof (run_tool_calls_results self tool_calls [] []) as Hres.
  pose proof (run_tool_calls_invoked_spec tool_calls [] []) as Hinv.
  destruct (Agent.run_tool_calls self tool_calls [] [])
    as [results invoked].
  cbn [fst snd app] in Hres, Hinv. exists results, invoked.
  split; [reflexivity|]. subst results. split; [apply length_map|].
  split; [|exact Hinv].
  intros i c Hc. eexists. rewrite list_lookup_fmap, Hc. reflexivity.
Qed.

Lemma run_end fuel messages :
  Agent.run self fuel Agent.END messages = Some (Agent.END, messages).
Proof. destruct fuel; reflexivity. Qed.

Lemma step_llm_spec messages :
  exists content tool_calls,
    Agent.step self Agent.Llm messages
    = Some (if (0 <? Z.of_nat (length tool_calls))%Z
            then Agent.Action else Agent.END,
            messages ++ [AIMessage content tool_calls]).
Proof.
  unfold Agent.step, Agent.exists_action, Agent.last_tool_calls,
    Agent.call_llm.
  destruct (Agent.model_invoke self _) as [content tool_calls].
  exists content, tool_calls. rewrite last_snoc.
  destruct (0 <? _)%Z; reflexivity.
Qed.

Lemma step_action_spec messages content tool_calls :
  last messages = Some (AIMessage content tool_calls) ->
  exists results,
    Agent.step self Agent.Action messages
    = Some (Agent.Llm, messages ++ results)
    /\ Forall (fun m => exists a b c, m = ToolMessage a b c) results.
Proof.
  intros Hlast. unfold Agent.step, Agent.take_action, Agent.last_tool_calls.
  rewrite Hlast.
  pose proof (run_tool_calls_results self tool_calls [] []) as Hres.
  destruct (Agent.run_tool_calls self tool_calls [] [])
    as [results invoked].
  cbn [fst app] in Hres. exists results. split; [reflexivity|].
  subst results. apply List.Forall_forall. intros m Hm.
  apply List.in_map_iff in Hm as (c & <- & _). eauto.
Qed.

(** X15: the graph ends only on a final answer.  If a run that starts at
    the reasoning node reaches the end, the last message of the
    conversation is an assistant message without tool calls. *)
Theorem run_ends_on_final_answer fuel messages messages' :
  Agent.run self fuel Agent.Llm messages = Some (Agent.END, messages') ->
  exists content, last messages' = Some (AIMessage content []).
Proof.
  assert (Hgen : forall fuel n messages,
            n = Agent.Llm
            \/ (n = Agent.Action
                /\ exists content tool_calls,
                     last messages = Some (AIMessage content tool_calls)) ->
            Agent.run self fuel n messages = Some (Agent.END, messages') ->
            exists content, last messages' = Some (AIMessage content [])).
  { clear fuel messages. induction fuel as [|fuel IH]; intros n messages Hn.
    - cbn. intros [= -> _]. destruct Hn as [Hn|[Hn _]]; discriminate.
    - destruct Hn as [->|[-> (content & tool_calls & Hlast)]].
      + cbn [Agent.run].
        destruct (step_llm_spec messages) as (content & tool_calls & ->).
        destruct tool_calls as [|c rest].
        * cbn [length Z.of_nat Z.ltb Z.compare]. rewrite run_end.
          intros [= <-]. exists content. apply last_snoc.
        * replace (0 <? Z.of_nat (length (c :: rest)))%Z with true
            by (symmetry; apply Z.ltb_lt; cbn [length]; lia).
          apply IH. right. split; [reflexivity|].
          exists content, (c :: rest). apply last_snoc.
      + cbn [Agent.run].
        destruct (step_action_spec messages content tool_calls Hlast)
          as (results & -> & _).
        apply IH. left. reflexivity. }
  apply Hgen. left. reflexivity.
Qed.



End AgentMore.

(** X18: the tool set of an agent.  A name is bound in
    [{t.name: t for t in tools}] exactly when some tool of the list has
    that name, and it is then bound to the last such tool. *)
Theorem tools_by_name_lookup (tools : list Agent.tool) (nm : string) :
  (Agent.tools_by_name tools !! nm = None
   <-> ~ In nm (map Agent.tool_name tools))
  /\ (forall t later,
        tools = later ++ [t] ->
        Agent.tools_by_name tools !! Agent.tool_name t = Some t)
  /\ (forall t,
        Agent.tools_by_name tools !! nm = Some t ->
        In t tools /\ Agent.tool_name t = nm).
Proof.
  unfold Agent.tools_by_name.
  assert (Hgen : forall tools (m : gmap string Agent.tool),
            (foldl (fun m t => <[Agent.tool_name t := t]> m) m tools !! nm
             = None
             <-> m !! nm = None /\ ~ In nm (map Agent.tool_name tools))
            /\ (forall t,
                  foldl (fun m t => <[Agent.tool_name t := t]> m) m tools
                  !! nm = Some t ->
                  m !! nm = Some t
                  \/ (In t tools /\ Agent.tool_name t = nm))).
  { clear tools. induction tools as [|t tools IH]; intros m.
    - cbn. split; [tauto|auto].
    - cbn [foldl map]. destruct (IH (<[Agent.tool_name t := t]> m))
        as [IHnone IHsome]. split.
      + rewrite IHnone, lookup_insert_None. cbn [In]. tauto.
      + intros t' Ht'. apply IHsome in Ht' as [Ht'|[Hin Hname]].
        * apply lookup_insert_Some in Ht' as [[Hname <-]|[_ Hm]].
          -- right. split; [left; reflexivity|exact Hname].
          -- left. exact Hm.
        * right. split; [right; exact Hin|exact Hname]. }
  split; [|split].
  - destruct (Hgen tools ∅) as [Hnone _]. rewrite Hnone, lookup_empty. tauto.
  - intros t later ->. rewrite foldl_app. cbn [foldl].
    apply lookup_insert_eq.
  - intros t Ht. destruct (Hgen tools ∅) as [_ Hsome].
    apply Hsome in Ht as [Ht|Ht]; [|exact Ht].
    rewrite lookup_empty in Ht. discriminate.
Qed.

Lemma take_action_answers_every_call_witness :
  exists results invoked,
    Agent.take_action Sample.agent Sample.acting_state
    = Some (results, invoked)
    /\ length results = 2%nat
    /\ (forall i c,
          [Sample.bad_call; Sample.good_call] !! i = Some c ->
          exists answer,
            results !! i
            = Some (Msg.ToolMessage (Msg.id c) (Msg.name c) answer))
    /\ invoked
       = map (fun c => (Msg.name c, Msg.args c))
             (List.filter
                (fun c =>
                   bool_decide
                     (is_Some (Agent.tools Sample.agent !! Msg.name c)))
                [Sample.bad_call; Sample.good_call]).
Proof.
  apply (take_action_answers_every_call Sample.agent Sample.acting_state
           "" [Sample.bad_call; Sample.good_call]).
  reflexivity.
Defined.

Lemma run_ends_on_final_answer_witness :
  exists content,
    last ([Msg.HumanMessage "Broken pinecone upsert"]
          ++ [Msg.AIMessage "PR 43 caused it." []])
    = Some (Msg.AIMessage content []).
Proof.
  apply (run_ends_on_final_answer Sample.quiet_agent 3%nat
           [Msg.HumanMessage "Broken pinecone upsert"]).
  reflexivity.
Defined.



(** ** The recency test and the order of time *)

Lemma lex_compare_not_gt_trans a : forall b c,
  Datetime.lex_compare a b <> Gt -> Datetime.lex_compare b c <> Gt ->
  Datetime.lex_compare a c <> Gt.
Proof.
  induction a as [|x a IH]; intros [|y b] [|z c]; cbn; try congruence.
  destruct (N.compare_spec x y) as [Hxy|Hxy|Hxy]; try congruence;
    destruct (N.compare_spec y z) as [Hyz|Hyz|Hyz]; try congruence.
  - subst. rewrite N.compare_refl. apply IH.
  - intros _ _. rewrite (proj2 (N.compare_lt_iff x z)) by lia. discriminate.
  - intros _ _. rewrite (proj2 (N.compare_lt_iff x z)) by lia. discriminate.
  - intros _ _. rewrite (proj2 (N.compare_lt_iff x z)) by lia. discriminate.
Qed.

Lemma datetime_leb_trans a b c :
  Datetime.leb a b = true -> Datetime.leb b c = true ->
  Datetime.leb a c = true.
Proof.
  unfold Datetime.leb, Datetime.compare. intros Hab Hbc.
  pose proof (lex_compare_not_gt_trans (Datetime.fields a)
                (Datetime.fields b) (Datetime.fields c)) as Htrans.
  destruct (Datetime.lex_compare (Datetime.fields a) (Datetime.fields c));
    [reflexivity..|].
  exfalso. apply Htrans; [| |reflexivity].
  - destruct (Datetime.lex_compare (Datetime.fields a) (Datetime.fields b));
      congruence.
  - destruct (Datetime.lex_compare (Datetime.fields b) (Datetime.fields c));
      congruence.
Qed.

(** X19: the recency test respects the order of time on GitHub
    timestamps.  If a pull request counts as recent, so does every pull
    request updated at the same or a later instant. *)
Theorem is_recent_monotone (w : Embedder.world) hours_ago
    (pr pr' : Pull.t) (u u' : Datetime.t) :
  Datetime.wf (Embedder.recency_of w hours_ago) ->
  Datetime.wf u -> Datetime.microsecond u = 0%N ->
  Datetime.wf u' -> Datetime.microsecond u' = 0%N ->
  Pull.updated_at pr = Datetime.github_format u ->
  Pull.updated_at pr' = Datetime.github_format u' ->
  Datetime.leb u u' = true ->
  Embedder.is_recent (Embedder.recency_str w hours_ago) pr = true ->
  Embedder.is_recent (Embedder.recency_str w hours_ago) pr' = true.
Proof.
  intros Hc Hu Hmu Hu' Hmu' Hpr Hpr' Hle.
  unfold Embedder.is_recent, Embedder.recency_str.
  rewrite Hpr, Hpr', !str_ge_recency by assumption.
  intros Hrecent. exact (datetime_leb_trans _ _ _ Hrecent Hle).
Qed.

Lemma is_recent_monotone_witness :
  Embedder.is_recent
    (Embedder.recency_str (Sample.collector_world Sample.stale_only) 36)
    Sample.merged_pull = true.
Proof.
  apply (is_recent_monotone (Sample.collector_world Sample.stale_only) 36
           Sample.stale_pull Sample.merged_pull Sample.noon
           {| Datetime.year := 2024; Datetime.month := 5; Datetime.day := 2;
              Datetime.hour := 9; Datetime.minute := 0;
              Datetime.second := 0; Datetime.microsecond := 0 |});
    try reflexivity; vm_compute; repeat split.
Defined.
